(** * StudyMate: the App component of src/App.tsx as a state machine

    The component keeps ten pieces of React state and one ref.  Its event
    handlers are embedded as programs of a small monad that threads the
    component state, records the requests sent to the outside collaborators
    (generative service, document store) and propagates JavaScript
    exceptions the way [try]/[catch]/[finally] do.  What the collaborators
    answer is not part of the program: it is supplied by an environment
    record, so every theorem below holds for all their answers.

    A handler run is one transition: the state updates it queues and the
    answers it awaits are applied in source order.  For [handleGenerate],
    which waits for its collaborators, the event system below also has the
    two stretches of a run as separate events, so that other events can be
    handled in between. *)

From Stdlib Require Import String Ascii List ZArith Bool Lia DecimalString.
From Stdlib Require DecimalPos DecimalZ.
Import ListNotations.
Set Warnings "-register-all".
Open Scope string_scope.
Open Scope list_scope.

(** String concatenation, JavaScript's [+] on strings. *)
Infix "+++" := String.append (at level 60, right associativity).

(* ================================================================= *)
(** ** The JavaScript platform *)

(** Strings are sequences of code units; the model keeps to the code units
    below 256, which is what [string] holds. *)

Module JS.

(** Run-time values, as [JSON.parse] and property reads produce them.  A
    number is kept as its literal: no claim computes with numbers. *)
Inductive Value : Type :=
| Undefined
| Null
| Boolean (b : bool)
| Number (literal : string)
| Str (s : string)
| Array (items : list Value)
| Object (props : list (string * Value)).

(** A thrown value: an Error object, whose [message] may be missing.
    The platform and the collaborators throw such objects; a thrown
    [null] is not modelled. *)
Record Error : Type := mkError { message : option string }.

Definition TypeError (msg : string) : Error := mkError (Some msg).

(** How an evaluation ends: with a value, or by throwing. *)
Inductive Completion (A : Type) : Type :=
| Normal (a : A)
| Throw (e : Error).
Arguments Normal {A} a.
Arguments Throw {A} e.

(** Own-property lookup in an object literal; a later duplicate key wins,
    as in [JSON.parse]. *)
Fixpoint lookup (key : string) (props : list (string * Value)) : option Value :=
  match props with
  | [] => None
  | (k, v) :: rest =>
      match lookup key rest with
      | Some later => Some later
      | None => if String.eqb k key then Some v else None
      end
  end.

(** [v.key] for a key that no prototype defines (such as [summary] and
    [flashcards]): a TypeError on [null] and [undefined] (worded as V8
    words it), [undefined] on the other primitives and on arrays, the own
    property on objects. *)
Definition get (v : Value) (key : string) : Completion Value :=
  match v with
  | Undefined =>
      Throw (TypeError ("Cannot read properties of undefined (reading '" +++ key +++ "')"))
  | Null =>
      Throw (TypeError ("Cannot read properties of null (reading '" +++ key +++ "')"))
  | Object props =>
      Normal (match lookup key props with Some w => w | None => Undefined end)
  | _ => Normal Undefined
  end.

(** WhiteSpace and LineTerminator code units below 256: TAB, LF, VT, FF,
    CR, SP and NBSP. *)
Definition isWhiteSpace (c : ascii) : bool :=
  let n := nat_of_ascii c in
  (Nat.leb 9 n && Nat.leb n 13) || Nat.eqb n 32 || Nat.eqb n 160.

Fixpoint trimStart (s : string) : string :=
  match s with
  | EmptyString => EmptyString
  | String c rest => if isWhiteSpace c then trimStart rest else s
  end.

Fixpoint trimEnd (s : string) : string :=
  match s with
  | EmptyString => EmptyString
  | String c rest =>
      match trimEnd rest with
      | EmptyString => if isWhiteSpace c then EmptyString else String c EmptyString
      | kept => String c kept
      end
  end.

(** [String.prototype.trim] *)
Definition trim (s : string) : string := trimEnd (trimStart s).

(** Truthiness of a string, and of a string that may be [null]. *)
Definition truthy (s : string) : bool :=
  match s with EmptyString => false | _ => true end.

Definition truthy_opt (o : option string) : bool :=
  match o with Some s => truthy s | None => false end.

(** [a || b] on strings that may be missing. *)
Definition or_else (o : option string) (dflt : string) : string :=
  match o with
  | Some s => if truthy s then s else dflt
  | None => dflt
  end.

(** A template literal's rendering of an integer. *)
Definition show (z : Z) : string := NilZero.string_of_int (Z.to_int z).

End JS.

Import JS.

(* ================================================================= *)
(** ** Type definitions of the component *)

Module Tab.
(** [type Tab = 'input' | 'notes' | 'flashcards' | 'history'] *)
Inductive t : Type := input | notes | flashcards | history.
End Tab.

(** The [timestamp] member is typed [any].  Three kinds of value flow
    through it: the local objects with a [toDate] closure over the clock
    ([toDate: () => new Date(Date.now() - ago)], with [ago = 0] for
    [new Date()]), the store's [serverTimestamp()] placeholder handed to
    [add], and what a snapshot delivers (a store time, or [null] while the
    server has not assigned one). *)
Inductive Timestamp : Type :=
| LocalClock (ago : Z)
| ServerTimestampSentinel
| StoreTime (millis : option Z).

(** [ts.toDate()] evaluated when the clock shows [now]; [None] when the
    value has no date to give. *)
Definition toDate (ts : Timestamp) (now : Z) : option Z :=
  match ts with
  | LocalClock ago => Some (now - ago)%Z
  | ServerTimestampSentinel => None
  | StoreTime millis => millis
  end.

(** [interface Lecture].  [summary] and [flashcards] hold whatever value
    the parsed payload had: the interface is not checked at run time. *)
Record Lecture : Type := mkLecture {
  id : string;
  title : string;
  summary : Value;
  flashcards : Value;
  timestamp : Timestamp;
  originalText : string
}.

(** The local [lectureData] of [handleGenerate]. *)
Record LectureData : Type := mkLectureData {
  ld_title : string;
  ld_summary : Value;
  ld_flashcards : Value;
  ld_originalText : string
}.

(** [Omit<Lecture, 'id'>]: what is handed to the store's [add] and what a
    snapshot document's [data()] returns. *)
Record NewLecture : Type := mkNewLecture {
  nl_title : string;
  nl_summary : Value;
  nl_flashcards : Value;
  nl_timestamp : Timestamp;
  nl_originalText : string
}.

(** A flashcard literal [{ term, definition }]. *)
Definition Flashcard (term definition : string) : Value :=
  Object [("term", Str term); ("definition", Str definition)].

(** [MOCK_LECTURES] *)
Definition MOCK_LECTURES : list Lecture :=
  [ {| id := "mock-1";
       title := "Introduction to AI (Sample)";
       summary := Str "This is a sample summary about Artificial Intelligence. It explains the core concepts, including machine learning, deep learning, and natural language processing. The goal is to provide a foundational understanding of the field.";
       flashcards := Array
         [ Flashcard "Machine Learning" "A field of study in artificial intelligence concerned with the development and study of statistical algorithms that can learn from data and generalize to unseen data.";
           Flashcard "Neural Network" "A series of algorithms that endeavors to recognize underlying relationships in a set of data through a process that mimics the way the human brain operates." ];
       timestamp := LocalClock (1000 * 60 * 5);
       originalText := "This is the original text for the sample lecture on AI." |} ].

(** The speech recognition object held by [recognitionRef]: idle,
    listening after [start()], or stopping after [stop()] until its [end]
    event is delivered.  It counts as started from [start()] to that
    event. *)
Inductive Recognition : Type := Idle | Listening | Stopping.

Definition started (r : Recognition) : bool :=
  match r with Idle => false | Listening | Stopping => true end.

(** The component state: the ten [useState] cells and [recognitionRef]. *)
Record State : Type := mkState {
  lectureText : string;
  isRecording : bool;
  interimTranscript : string;
  isLoading : bool;
  error : option string;
  activeTab : Tab.t;
  lectures : list Lecture;
  selectedLecture : option Lecture;
  userId : option string;
  mockMode : bool;
  recognitionRef : option Recognition
}.

(** Record updates, one per state cell. *)
Definition set_lectureText (v : string) (s : State) : State :=
  mkState v (isRecording s) (interimTranscript s) (isLoading s) (error s)
    (activeTab s) (lectures s) (selectedLecture s) (userId s) (mockMode s)
    (recognitionRef s).

Definition set_isRecording (v : bool) (s : State) : State :=
  mkState (lectureText s) v (interimTranscript s) (isLoading s) (error s)
    (activeTab s) (lectures s) (selectedLecture s) (userId s) (mockMode s)
    (recognitionRef s).

Definition set_interimTranscript (v : string) (s : State) : State :=
  mkState (lectureText s) (isRecording s) v (isLoading s) (error s)
    (activeTab s) (lectures s) (selectedLecture s) (userId s) (mockMode s)
    (recognitionRef s).

Definition set_isLoading (v : bool) (s : State) : State :=
  mkState (lectureText s) (isRecording s) (interimTranscript s) v (error s)
    (activeTab s) (lectures s) (selectedLecture s) (userId s) (mockMode s)
    (recognitionRef s).

Definition set_error (v : option string) (s : State) : State :=
  mkState (lectureText s) (isRecording s) (interimTranscript s) (isLoading s) v
    (activeTab s) (lectures s) (selectedLecture s) (userId s) (mockMode s)
    (recognitionRef s).

Definition set_activeTab (v : Tab.t) (s : State) : State :=
  mkState (lectureText s) (isRecording s) (interimTranscript s) (isLoading s)
    (error s) v (lectures s) (selectedLecture s) (userId s) (mockMode s)
    (recognitionRef s).

Definition set_lectures (v : list Lecture) (s : State) : State :=
  mkState (lectureText s) (isRecording s) (interimTranscript s) (isLoading s)
    (error s) (activeTab s) v (selectedLecture s) (userId s) (mockMode s)
    (recognitionRef s).

Definition set_selectedLecture (v : option Lecture) (s : State) : State :=
  mkState (lectureText s) (isRecording s) (interimTranscript s) (isLoading s)
    (error s) (activeTab s) (lectures s) v (userId s) (mockMode s)
    (recognitionRef s).

Definition set_userId (v : option string) (s : State) : State :=
  mkState (lectureText s) (isRecording s) (interimTranscript s) (isLoading s)
    (error s) (activeTab s) (lectures s) (selectedLecture s) v (mockMode s)
    (recognitionRef s).

Definition set_mockMode (v : bool) (s : State) : State :=
  mkState (lectureText s) (isRecording s) (interimTranscript s) (isLoading s)
    (error s) (activeTab s) (lectures s) (selectedLecture s) (userId s) v
    (recognitionRef s).

Definition set_recognitionRef (v : option Recognition) (s : State) : State :=
  mkState (lectureText s) (isRecording s) (interimTranscript s) (isLoading s)
    (error s) (activeTab s) (lectures s) (selectedLecture s) (userId s)
    (mockMode s) v.

(* ================================================================= *)
(** ** Outside collaborators *)

(** The page globals the component reads. *)
Record FirebaseConfig : Type := { apiKey : option string }.

Record Window : Type := mkWindow {
  firebase : bool;                        (* is [window.firebase] defined *)
  __firebase_config : option FirebaseConfig;
  __initial_auth_token : option string;
  __app_id : option string;
  SpeechRecognition : bool;               (* is the constructor defined *)
  webkitSpeechRecognition : bool
}.

(** The [responseSchema] language, as far as the request uses it. *)
Inductive Schema : Type :=
| TypeSTRING
| TypeARRAY (items : Schema)
| TypeOBJECT (properties : list (string * Schema)) (required : list string).

(** The argument of [ai.models.generateContent]. *)
Record GenerateContentParameters : Type := mkParams {
  model : string;
  contents : string;
  systemInstruction : string;
  responseMimeType : string;
  responseSchema : Schema
}.

(** Requests that leave the component. *)
Inductive Call : Type :=
| SignIn (token : option string)
| OnSnapshot (collectionPath : string)
| GenerateContent (params : GenerateContentParameters)
| CollectionAdd (collectionPath : string) (doc : NewLecture).

(** What the collaborators answer.  [signIn] stands for the start of the
    try block of [setupFirebase] up to reading [auth.currentUser] (the uid,
    or [None] for a null user); [onSnapshot] for building the query and
    registering the listener; [GoogleGenAI] for the client constructor;
    [generateContent] resolves with [response.text], which may be
    undefined. *)
Record Collaborators : Type := mkCollaborators {
  Date_now : Z;
  signIn : option string -> Completion (option string);
  onSnapshot : string -> Completion unit;
  GoogleGenAI : Completion unit;
  generateContent : GenerateContentParameters -> Completion (option string);
  JSON_parse : string -> Completion Value;
  add : string -> NewLecture -> Completion unit
}.

(* ================================================================= *)
(** ** The handler monad *)

(** The result of running a handler: how it ended, the component state it
    left, and the requests it sent, oldest first.  State updates made
    before a throw stay made. *)
Record Run (A : Type) : Type := mkRun {
  outcome : Completion A;
  after : State;
  calls : list Call
}.
Arguments mkRun {A} _ _ _.
Arguments outcome {A} _.
Arguments after {A} _.
Arguments calls {A} _.

Definition M (A : Type) : Type := State -> Run A.

Definition ret {A : Type} (a : A) : M A :=
  fun s => mkRun (Normal a) s [].

Definition bind {A B : Type} (m : M A) (k : A -> M B) : M B :=
  fun s =>
    let r := m s in
    match outcome r with
    | Normal a =>
        let r' := k a (after r) in
        mkRun (outcome r') (after r') (calls r ++ calls r')
    | Throw e => mkRun (Throw e) (after r) (calls r)
    end.

Notation "x <- m ;; k" := (bind m (fun x => k))
  (at level 61, m at next level, right associativity).
Notation "m ;; k" := (bind m (fun _ => k))
  (at level 61, right associativity).

(** A state update. *)
Definition upd (f : State -> State) : M unit :=
  fun s => mkRun (Normal tt) (f s) [].

(** The values of the render the handler closes over. *)
Definition withProps {A : Type} (k : State -> M A) : M A :=
  fun s => k s s.

(** An evaluation that may throw and sends nothing. *)
Definition eval {A : Type} (c : Completion A) : M A :=
  fun s => mkRun c s [].

(** A request to a collaborator, awaited. *)
Definition await {A : Type} (call : Call) (answer : Completion A) : M A :=
  fun s => mkRun answer s [call].

(** [try { body } catch (err) { handler err } finally { fin }], for a
    [fin] that completes normally (as every one in the source does). *)
Definition try_catch {A : Type} (body : M A) (handler : Error -> M A) : M A :=
  fun s =>
    let r := body s in
    match outcome r with
    | Normal _ => r
    | Throw e =>
        let r' := handler e (after r) in
        mkRun (outcome r') (after r') (calls r ++ calls r')
    end.

Definition finally {A : Type} (body : M A) (fin : M unit) : M A :=
  fun s =>
    let r := body s in
    let r' := fin (after r) in
    mkRun (match outcome r' with
           | Normal _ => outcome r
           | Throw e => Throw e
           end) (after r') (calls r ++ calls r').

(** The React setters. *)
Definition setLectureText (v : string) : M unit := upd (set_lectureText v).
Definition setIsRecording (v : bool) : M unit := upd (set_isRecording v).
Definition setInterimTranscript (v : string) : M unit := upd (set_interimTranscript v).
Definition setIsLoading (v : bool) : M unit := upd (set_isLoading v).
Definition setError (v : option string) : M unit := upd (set_error v).
Definition setActiveTab (v : Tab.t) : M unit := upd (set_activeTab v).
Definition setLectures (v : list Lecture) : M unit := upd (set_lectures v).
Definition setSelectedLecture (v : option Lecture) : M unit := upd (set_selectedLecture v).
Definition setUserId (v : option string) : M unit := upd (set_userId v).
Definition setMockMode (v : bool) : M unit := upd (set_mockMode v).

(** The setters called with an updater function. *)
Definition setLectureText_by (f : string -> string) : M unit :=
  upd (fun s => set_lectureText (f (lectureText s)) s).
Definition setLectures_by (f : list Lecture -> list Lecture) : M unit :=
  upd (fun s => set_lectures (f (lectures s)) s).
Definition setSelectedLecture_by (f : option Lecture -> option Lecture) : M unit :=
  upd (fun s => set_selectedLecture (f (selectedLecture s)) s).

(* ================================================================= *)
(** ** The component *)

(** The [useState] initial values; [recognitionRef] is filled by the
    speech effect when the page has a recognition constructor. *)
Definition initialState (w : Window) : State :=
  {| lectureText := "";
     isRecording := false;
     interimTranscript := "";
     isLoading := false;
     error := None;
     activeTab := Tab.input;
     lectures := [];
     selectedLecture := None;
     userId := None;
     mockMode := false;
     recognitionRef :=
       if SpeechRecognition w || webkitSpeechRecognition w
       then Some Idle else None |}.

(** [l.length > 0 ? l[0] : null] *)
Definition firstOrNull (l : list Lecture) : option Lecture :=
  if Nat.ltb 0 (List.length l) then nth_error l 0 else None.

Definition setupMockMode : M unit :=
  setMockMode true ;;
  setUserId (Some "MOCK_USER_ID") ;;
  setLectures MOCK_LECTURES ;;
  setSelectedLecture (firstOrNull MOCK_LECTURES).

(** [!window.firebase || !window.__firebase_config ||
     !window.__firebase_config.apiKey] *)
Definition configMissing (w : Window) : bool :=
  negb (firebase w)
  || match __firebase_config w with
     | None => true
     | Some cfg => negb (truthy_opt (apiKey cfg))
     end.

(** [`/artifacts/${appId}/users/${uid}/lectures`] *)
Definition lecturesPath (w : Window) (uid : string) : string :=
  let appId := or_else (__app_id w) "MOCK_APP_ID" in
  "/artifacts/" +++ appId +++ "/users/" +++ uid +++ "/lectures".

Definition setupFirebase (w : Window) (c : Collaborators) : M unit :=
  if configMissing w then
    setupMockMode
  else
    try_catch
      (let token :=
         if truthy_opt (__initial_auth_token w)
         then __initial_auth_token w else None in
       currentUser <- await (SignIn token) (signIn c token) ;;
       match currentUser with
       | None => eval (Throw (mkError (Some "Authentication failed.")))
       | Some uid =>
           setUserId (Some uid) ;;
           setMockMode false ;;
           let collectionPath := lecturesPath w uid in
           await (OnSnapshot collectionPath) (onSnapshot c collectionPath)
       end)
      (fun err => setupMockMode).

(** A snapshot document: [doc.id] and [doc.data()]. *)
Record Doc : Type := mkDoc { doc_id : string; data : NewLecture }.

(** [{ id: doc.id, ...doc.data() }] *)
Definition lectureOfDoc (doc : Doc) : Lecture :=
  {| id := doc_id doc;
     title := nl_title (data doc);
     summary := nl_summary (data doc);
     flashcards := nl_flashcards (data doc);
     timestamp := nl_timestamp (data doc);
     originalText := nl_originalText (data doc) |}.

(** The updater handed to [setSelectedLecture] by the snapshot listener. *)
Definition reselect (lecturesData : list Lecture)
    (currentSelected : option Lecture) : option Lecture :=
  match currentSelected with
  | Some cur =>
      if existsb (fun l => String.eqb (id l) (id cur)) lecturesData
      then currentSelected
      else firstOrNull lecturesData
  | None => firstOrNull lecturesData
  end.

(** The success callback of [onSnapshot]. *)
Definition snapshotListener (docs : list Doc) : M unit :=
  let lecturesData := map lectureOfDoc docs in
  setLectures lecturesData ;;
  setSelectedLecture_by (reselect lecturesData).

(** The error callback of [onSnapshot]. *)
Definition snapshotError : M unit := setupMockMode.

(** One entry of [event.results]: [isFinal] and [[0].transcript]. *)
Record SpeechRecognitionResult : Type := mkResult {
  isFinal : bool;
  transcript : string
}.

Record SpeechRecognitionEvent : Type := mkEvent {
  resultIndex : nat;
  results : list SpeechRecognitionResult
}.

(** The loop of [onresult]: [(finalTranscript, interim)] after visiting
    the entries from [resultIndex] on. *)
Fixpoint collect (rs : list SpeechRecognitionResult)
    (finalTranscript interim : string) : string * string :=
  match rs with
  | [] => (finalTranscript, interim)
  | r :: rest =>
      if isFinal r
      then collect rest (finalTranscript +++ transcript r) interim
      else collect rest finalTranscript (interim +++ transcript r)
  end.

Definition onresult (event : SpeechRecognitionEvent) : M unit :=
  let '(finalTranscript, interim) :=
    collect (skipn (resultIndex event) (results event)) "" "" in
  setLectureText_by (fun prev => prev +++ finalTranscript) ;;
  setInterimTranscript interim.

Definition onend : M unit :=
  setIsRecording false ;;
  setInterimTranscript "".

(** [recognitionRef.current?.start()]: nothing without a recognition
    object; an InvalidStateError when it was started and has not ended. *)
Definition recognition_start : M unit :=
  fun s =>
    match recognitionRef s with
    | None => ret tt s
    | Some r =>
        if started r
        then eval (Throw (mkError (Some "recognition has already started"))) s
        else upd (set_recognitionRef (Some Listening)) s
    end.

(** [recognitionRef.current?.stop()]: a listening object is asked to
    stop; it stays started until its [end] event is delivered. *)
Definition recognition_stop : M unit :=
  fun s =>
    match recognitionRef s with
    | Some Listening => upd (set_recognitionRef (Some Stopping)) s
    | _ => ret tt s
    end.

(** The recognition object ends its session, just before it calls
    [onend]. *)
Definition recognition_ended : M unit :=
  fun s =>
    match recognitionRef s with
    | None => ret tt s
    | Some _ => upd (set_recognitionRef (Some Idle)) s
    end.

Definition handleToggleRecording : M unit :=
  withProps (fun render =>
    if isRecording render then
      recognition_stop ;;
      setIsRecording false
    else
      setLectureText "" ;;
      setInterimTranscript "" ;;
      recognition_start ;;
      setIsRecording true).

(** The request built by [handleGenerate]. *)
Definition generateParams (lectureText : string) : GenerateContentParameters :=
  {| model := "gemini-2.5-flash";
     contents := lectureText;
     systemInstruction := "You are an expert academic assistant. Your task is to process the provided lecture text and generate a concise summary and a set of flashcards with key terms and their definitions. Ensure the output is structured according to the provided JSON schema.";
     responseMimeType := "application/json";
     responseSchema :=
       TypeOBJECT
         [ ("summary", TypeSTRING);
           ("flashcards",
            TypeARRAY
              (TypeOBJECT
                 [ ("term", TypeSTRING); ("definition", TypeSTRING) ]
                 [ "term"; "definition" ])) ]
         [ "summary"; "flashcards" ] |}.

(** The local [lectureData]. *)
Definition lectureData (lectureText : string) (result_summary result_flashcards : Value)
    : LectureData :=
  {| ld_title := substring 0 40 lectureText +++ "...";
     ld_summary := result_summary;
     ld_flashcards := result_flashcards;
     ld_originalText := lectureText |}.

(** [newLecture] of the mock branch:
    [{ id: `mock-${Date.now()}`, ...lectureData, timestamp: { toDate: () => new Date() } }] *)
Definition newLecture_mock (now : Z) (d : LectureData) : Lecture :=
  {| id := "mock-" +++ show now;
     title := ld_title d;
     summary := ld_summary d;
     flashcards := ld_flashcards d;
     timestamp := LocalClock 0;
     originalText := ld_originalText d |}.

(** [newLecture] of the store branch:
    [{ ...lectureData, timestamp: FieldValue.serverTimestamp() }] *)
Definition newLecture_store (d : LectureData) : NewLecture :=
  {| nl_title := ld_title d;
     nl_summary := ld_summary d;
     nl_flashcards := ld_flashcards d;
     nl_timestamp := ServerTimestampSentinel;
     nl_originalText := ld_originalText d |}.

(** [response.text.trim()] *)
Definition text_trim (text : option string) : Completion string :=
  match text with
  | Some t => Normal (trim t)
  | None => Throw (TypeError "Cannot read properties of undefined (reading 'trim')")
  end.

(** [`${userId}`] *)
Definition show_userId (userId : option string) : string :=
  match userId with Some uid => uid | None => "null" end.

(** The [try] block of [handleGenerate], first half: the request to the
    generative service and the reading of its answer, up to the local
    [lectureData]. *)
Definition generate (c : Collaborators) (lectureText : string) : M LectureData :=
  eval (GoogleGenAI c) ;;
  let params := generateParams lectureText in
  text <- await (GenerateContent params) (generateContent c params) ;;
  jsonString <- eval (text_trim text) ;;
  result <- eval (JSON_parse c jsonString) ;;
  result_summary <- eval (get result "summary") ;;
  result_flashcards <- eval (get result "flashcards") ;;
  ret (lectureData lectureText result_summary result_flashcards).

(** The [try] block, second half: the record goes to the in-memory list
    in mock mode, to the store's [add] otherwise. *)
Definition addLecture (w : Window) (c : Collaborators)
    (userId : option string) (mockMode : bool) (lectureData : LectureData) : M unit :=
  if mockMode then
    let newLecture := newLecture_mock (Date_now c) lectureData in
    setLectures_by (fun prev => newLecture :: prev) ;;
    setSelectedLecture (Some newLecture)
  else
    let newLecture := newLecture_store lectureData in
    let collectionPath := lecturesPath w (show_userId userId) in
    await (CollectionAdd collectionPath newLecture) (add c collectionPath newLecture).

(** The whole [try] block. *)
Definition handleGenerate_try (w : Window) (c : Collaborators)
    (lectureText : string) (userId : option string) (mockMode : bool) : M unit :=
  lectureData <- generate c lectureText ;;
  addLecture w c userId mockMode lectureData.

(** [!lectureText.trim() || !userId] *)
Definition generateRefused (lectureText : string) (userId : option string) : bool :=
  negb (truthy (trim lectureText)) || negb (truthy_opt userId).

Definition handleGenerate (w : Window) (c : Collaborators) : M unit :=
  withProps (fun render =>
    let lectureText := lectureText render in
    let userId := userId render in
    let mockMode := mockMode render in
    if generateRefused lectureText userId then
      setError (Some "Lecture text is required.")
    else
      setIsLoading true ;;
      setError None ;;
      setActiveTab Tab.notes ;;
      finally
        (try_catch
           (handleGenerate_try w c lectureText userId mockMode)
           (fun err =>
              setError (Some ("An error occurred during generation: "
                              +++ or_else (message err) "Unknown error")) ;;
              setActiveTab Tab.input))
        (setIsLoading false)).

(** The two stretches of [handleGenerate] between which other events can
    be handled: up to the first [await], and from the answer on (the
    record is built and stored with the values captured at the click, and
    no state is set between the two awaits). *)
Definition handleGenerate_begin : M unit :=
  withProps (fun render =>
    if generateRefused (lectureText render) (userId render) then
      setError (Some "Lecture text is required.")
    else
      setIsLoading true ;;
      setError None ;;
      setActiveTab Tab.notes).

Definition handleGenerate_settle (w : Window) (c : Collaborators)
    (lectureText : string) (userId : option string) (mockMode : bool) : M unit :=
  finally
    (try_catch
       (handleGenerate_try w c lectureText userId mockMode)
       (fun err =>
          setError (Some ("An error occurred during generation: "
                          +++ or_else (message err) "Unknown error")) ;;
          setActiveTab Tab.input))
    (setIsLoading false).

Definition handleSelectLecture (lecture : Lecture) : M unit :=
  setSelectedLecture (Some lecture) ;;
  setActiveTab Tab.notes.

Definition isGenerateDisabled (s : State) : bool :=
  negb (truthy (trim (lectureText s))) || isLoading s.

(* ================================================================= *)
(** ** Events *)

(** What can happen to a mounted component: the user's actions on the
    rendered controls and the collaborators' callbacks.  A click on the
    generate button is handled in two events, the click itself and the
    arrival of the answers, so that other events can come in between. *)
Inductive Event : Type :=
| FirebaseSetup (c : Collaborators)
| Snapshot (docs : list Doc)
| SnapshotFailed
| ClickTab (tab : Tab.t)
| ChangeText (value : string)
| ClickRecord
| ClickGenerate
| GenerateSettled (c : Collaborators)
    (lectureText : string) (userId : option string) (mockMode : bool)
| ClickLecture (lecture : Lecture)
| SpeechResult (event : SpeechRecognitionEvent)
| SpeechEnd.

Definition handler (w : Window) (ev : Event) : M unit :=
  match ev with
  | FirebaseSetup c => setupFirebase w c
  | Snapshot docs => snapshotListener docs
  | SnapshotFailed => snapshotError
  | ClickTab tab => setActiveTab tab
  | ChangeText value => setLectureText value
  | ClickRecord => handleToggleRecording
  | ClickGenerate => handleGenerate_begin
  | GenerateSettled c lectureText userId mockMode =>
      handleGenerate_settle w c lectureText userId mockMode
  | ClickLecture lecture => handleSelectLecture lecture
  | SpeechResult event => onresult event
  | SpeechEnd => recognition_ended ;; onend
  end.

Definition dispatch (w : Window) (ev : Event) (s : State) : State :=
  after (handler w ev s).

(** When an event can occur: the setup runs once, before an identity is
    known; snapshots come from a live subscription; the text area, the
    record button and the generate button are rendered in the input tab
    (the last one possibly disabled), the history entries in the history
    tab; a generation settles while the loading flag is up (with any
    captured values: the state does not record them); recognition events
    come from a started recognition object. *)
Definition enabled (ev : Event) (s : State) : Prop :=
  match ev with
  | FirebaseSetup _ => userId s = None
  | Snapshot _ | SnapshotFailed => mockMode s = false /\ userId s <> None
  | ClickTab _ => True
  | ChangeText _ | ClickRecord => activeTab s = Tab.input
  | ClickGenerate => activeTab s = Tab.input /\ isGenerateDisabled s = false
  | GenerateSettled _ _ _ _ => isLoading s = true
  | ClickLecture lecture => activeTab s = Tab.history /\ In lecture (lectures s)
  | SpeechResult _ | SpeechEnd =>
      exists r, recognitionRef s = Some r /\ started r = true
  end.

Inductive reachable (w : Window) : State -> Prop :=
| reach_mount : reachable w (initialState w)
| reach_event (s : State) (ev : Event) :
    reachable w s -> enabled ev s -> reachable w (dispatch w ev s).

(* ================================================================= *)
(** ** Properties stated by the specification *)

(** The payload shape the specification requires: [summary] a string,
    [flashcards] an array of objects whose [term] and [definition] are
    strings.  The component has no such check; this predicate only serves
    to state what the specification asks. *)
Definition spec_isString (v : Value) : bool :=
  match v with Str _ => true | _ => false end.

Definition spec_member (v : Value) (key : string) : Value :=
  match get v key with Normal x => x | Throw _ => Undefined end.

Definition spec_flashcardShape (v : Value) : bool :=
  match v with
  | Object _ => spec_isString (spec_member v "term")
                && spec_isString (spec_member v "definition")
  | _ => false
  end.

Definition spec_requiredShape (v : Value) : bool :=
  match v with
  | Object _ =>
      spec_isString (spec_member v "summary")
      && match spec_member v "flashcards" with
         | Array items => forallb spec_flashcardShape items
         | _ => false
         end
  | _ => false
  end.

(** The record invariant the specification states: [flashcards] is a list
    (non-null, possibly empty) whose entries each have a non-empty
    [term]. *)
Definition spec_nonEmptyTerm (card : Value) : bool :=
  match spec_member card "term" with
  | Str t => truthy t
  | _ => false
  end.

Definition spec_flashcardsInvariant (v : Value) : bool :=
  match v with
  | Array cards => forallb spec_nonEmptyTerm cards
  | _ => false
  end.

(** A timestamp is resolved when [toDate()] yields a date whenever it is
    asked. *)
Definition resolved (ts : Timestamp) : Prop :=
  forall now, toDate ts now <> None.

(* ================================================================= *)
(** ** Vocabulary of the proofs *)

(** The state [handleGenerate] has set up when it enters its [try]
    block. *)
Definition generating (s : State) : State :=
  set_activeTab Tab.notes (set_error None (set_isLoading true s)).

(** The message the [catch] block shows for a thrown value. *)
Definition failureMessage (err : Error) : string :=
  "An error occurred during generation: " +++ or_else (message err) "Unknown error".

(** The entries of a flashcards value that is an array. *)
Definition cardsOf (v : Value) : list Value :=
  match v with Array items => items | _ => [] end.

(** What ties the recognition object to the two cells it drives: without
    an object there is never an interim text, and while [isRecording] is
    set an existing object is listening. *)
Definition recognition_inv (s : State) : Prop :=
  (recognitionRef s = None -> interimTranscript s = "")
  /\ (isRecording s = true ->
      forall r, recognitionRef s = Some r -> r = Listening).

(** Handlers that never touch the recognition object, the recording flag
    or the interim text. *)
Definition capture_frame (s s' : State) : Prop :=
  recognitionRef s' = recognitionRef s
  /\ isRecording s' = isRecording s
  /\ interimTranscript s' = interimTranscript s.

(** The run of the [try] block in the state in which [handleGenerate]
    enters it. *)
Definition attempt (w : Window) (c : Collaborators) (s : State) : Run unit :=
  handleGenerate_try w c (lectureText s) (userId s) (mockMode s) (generating s).

(** Case analysis on the next answer a run depends on. *)
Ltac next_answer :=
  match goal with
  | |- context [match ?x with Normal _ => _ | Throw _ => _ end] =>
      destruct x eqn:?; cbn
  | |- context [match ?x with Some _ => _ | None => _ end] =>
      destruct x eqn:?; cbn
  end.

Create HintDb studymate.

(* ================================================================= *)
(** ** Concrete sessions *)

(** The one-character string holding a double quote, and a JSON string
    literal for a text without special characters. *)
Definition dq : string := String (ascii_of_nat 34) "".
Definition json_string (s : string) : string := dq +++ s +++ dq.

(** A page that loads the store's script but carries no configuration,
    and one that is configured. *)
Definition page_without_config : Window :=
  {| firebase := true;
     __firebase_config := None;
     __initial_auth_token := None;
     __app_id := None;
     SpeechRecognition := true;
     webkitSpeechRecognition := false |}.

Definition page_with_config : Window :=
  {| firebase := true;
     __firebase_config := Some {| apiKey := Some "key" |};
     __initial_auth_token := None;
     __app_id := Some "studymate";
     SpeechRecognition := true;
     webkitSpeechRecognition := false |}.

(** A [JSON.parse] that knows one text. *)
Definition parsing (text : string) (v : Value) : string -> Completion Value :=
  fun t =>
    if String.eqb t text then Normal v
    else Throw (mkError (Some "Unexpected token in JSON"%string)).

(** Collaborators that sign the user in as [uid-1], accept the listener
    and every write, and answer a generation as given. *)
Definition collaborators (answer : Completion (option string))
    (parse : string -> Completion Value) : Collaborators :=
  {| Date_now := 1700000000000;
     signIn := fun _ => Normal (Some "uid-1");
     onSnapshot := fun _ => Normal tt;
     GoogleGenAI := Normal tt;
     generateContent := fun _ => answer;
     JSON_parse := parse;
     add := fun _ _ => Normal tt |}.

Definition no_parse : string -> Completion Value :=
  fun _ => Throw (mkError (Some "Unexpected end of JSON input")).

(** A service that rejects the request. *)
Definition rejecting : Collaborators :=
  collaborators (Throw (mkError (Some "quota exceeded"))) no_parse.

(** The session after the fallback setup, with a transcript typed in. *)
Definition fallback_session (text : string) : State :=
  dispatch page_without_config (ChangeText text)
    (dispatch page_without_config (FirebaseSetup rejecting)
       (initialState page_without_config)).

(** The session after the remote setup, with a transcript typed in. *)
Definition remote_session (text : string) : State :=
  dispatch page_with_config (ChangeText text)
    (dispatch page_with_config (FirebaseSetup rejecting)
       (initialState page_with_config)).

(** The configured page before the sign-in has answered: no user
    identifier yet, with a transcript typed in. *)
Definition early_session (text : string) : State :=
  dispatch page_with_config (ChangeText text) (initialState page_with_config).

(** A service whose answer [{}] parses to the empty object. *)
Definition empty_object_service : Collaborators :=
  collaborators (Normal (Some "{}")) (parsing "{}" (Object [])).

(** A service whose answer has the required shape, with one flashcard
    whose term is the empty string:
    [{ summary: s, flashcards: [{ term: (empty), definition: d }] }]. *)
Definition empty_term_text : string :=
  "{" +++ json_string "summary" +++ ":" +++ json_string "s" +++ ","
  +++ json_string "flashcards" +++ ":[{" +++ json_string "term" +++ ":"
  +++ json_string "" +++ "," +++ json_string "definition" +++ ":"
  +++ json_string "d" +++ "}]}".

Definition empty_term_payload : Value :=
  Object [("summary", Str "s"); ("flashcards", Array [Flashcard "" "d"])].

Definition empty_term_service : Collaborators :=
  collaborators (Normal (Some empty_term_text))
    (parsing empty_term_text empty_term_payload).

(** The first scenario of the specification: one flashcard. *)
Definition neuron_text : string :=
  "{" +++ json_string "summary" +++ ":" +++ json_string "..." +++ ","
  +++ json_string "flashcards" +++ ":[{" +++ json_string "term" +++ ":"
  +++ json_string "Neuron" +++ "," +++ json_string "definition" +++ ":"
  +++ json_string "..." +++ "}]}".

Definition neuron_payload : Value :=
  Object [("summary", Str "..."); ("flashcards", Array [Flashcard "Neuron" "..."])].

Definition neuron_service : Collaborators :=
  collaborators (Normal (Some neuron_text)) (parsing neuron_text neuron_payload).

Definition neuron_transcript : string := "Neurons transmit signals via synapses.".

(** A capture in progress: recording was started on the fresh page and
    the recognition object has delivered one final segment and one
    interim hypothesis. *)
Definition heard : SpeechRecognitionEvent :=
  {| resultIndex := 0;
     results := [ mkResult true "Neurons transmit "; mkResult false "sig" ] |}.

Definition capturing : State :=
  dispatch page_without_config (SpeechResult heard)
    (dispatch page_without_config ClickRecord
       (initialState page_without_config)).

(** A stored document, and the session in which the lecture [b] was
    selected from an older snapshot. *)
Definition stored (i t : string) : Doc :=
  {| doc_id := i;
     data := {| nl_title := t;
                nl_summary := Str "s";
                nl_flashcards := Array [];
                nl_timestamp := StoreTime (Some 1700000000000%Z);
                nl_originalText := t |} |}.

Definition selected_b : State :=
  dispatch page_with_config (Snapshot [stored "b" "older"]) (remote_session "").

(* ================================================================= *)
(** ** What the tabs show *)

(** The notes tab:
    [isLoading && !selectedLecture ? generating : selectedLecture ? summary : nothing]. *)
Inductive NotesView : Type :=
| GeneratingSummary
| SummaryOf (summary : Value)
| NoLectureSelected.

(** Whether React renders a value as a child: strings and numbers as
    text, [undefined], [null] and booleans as nothing, an array by its
    entries; a plain object is refused with an error, also inside an
    array. *)
Fixpoint renderable (v : Value) : bool :=
  match v with
  | Object _ => false
  | Array items => forallb renderable items
  | _ => true
  end.

(** [<p>{selectedLecture.summary}</p>]: rendering throws when the summary
    cannot be a child. *)
Definition summaryView (lecture : Lecture) : Completion NotesView :=
  if renderable (summary lecture)
  then Normal (SummaryOf (summary lecture))
  else Throw (mkError (Some "Objects are not valid as a React child")).

Definition notesTab (s : State) : Completion NotesView :=
  if isLoading s && match selectedLecture s with None => true | Some _ => false end
  then Normal GeneratingSummary
  else match selectedLecture s with
       | Some lecture => summaryView lecture
       | None => Normal NoLectureSelected
       end.

(** [v.length]: arrays and strings have a length, [null] and [undefined]
    cannot be read, an object has one only as an own member, the other
    primitives have none. *)
Definition length_of (v : Value) : Completion Value :=
  match v with
  | Array items => Normal (Number (show (Z.of_nat (List.length items))))
  | Str s => Normal (Number (show (Z.of_nat (String.length s))))
  | _ => get v "length"
  end.

(** The first thing the flashcards tab evaluates for a selected lecture
    (when it does not show the loading line):
    [selectedLecture.flashcards.length]. *)
Definition flashcardsTab_length (s : State) : option (Completion Value) :=
  match selectedLecture s with
  | None => None
  | Some lecture => Some (length_of (flashcards lecture))
  end.

(** One entry of the history tab: the title, the instant handed to
    [toLocaleString] ([None] for an invalid date) and whether the entry is
    marked as the selected one. *)
Record HistoryEntry : Type := mkEntry {
  entry_title : string;
  entry_date : option Z;
  entry_selected : bool
}.

(** [new Date(lecture.timestamp?.toDate())]: the closure's date, the
    store's time, an invalid date for a missing timestamp; the store's
    placeholder has no [toDate] to call. *)
Definition entryDate (ts : Timestamp) (now : Z) : Completion (option Z) :=
  match ts with
  | LocalClock ago => Normal (Some (now - ago)%Z)
  | StoreTime millis => Normal millis
  | ServerTimestampSentinel =>
      Throw (TypeError "lecture.timestamp?.toDate is not a function")
  end.

(** [selectedLecture?.id === lecture.id] *)
Definition isSelected (selected : option Lecture) (lecture : Lecture) : bool :=
  match selected with
  | Some cur => String.eqb (id cur) (id lecture)
  | None => false
  end.

Definition historyEntry (now : Z) (selected : option Lecture) (lecture : Lecture)
    : Completion HistoryEntry :=
  match entryDate (timestamp lecture) now with
  | Normal date => Normal (mkEntry (title lecture) date (isSelected selected lecture))
  | Throw e => Throw e
  end.

(** [lectures.map(...)], stopping at the first entry whose rendering
    throws. *)
Fixpoint historyEntries (now : Z) (selected : option Lecture)
    (ls : list Lecture) : Completion (list HistoryEntry) :=
  match ls with
  | [] => Normal []
  | lecture :: rest =>
      match historyEntry now selected lecture with
      | Throw e => Throw e
      | Normal entry =>
          match historyEntries now selected rest with
          | Throw e => Throw e
          | Normal entries => Normal (entry :: entries)
          end
      end
  end.

(** The history tab: the local-mode notice and the list, or the line "No
    past lectures found." ([None]) for an empty list. *)
Record HistoryView : Type := mkHistory {
  localNotice : bool;
  pastLectures : option (list HistoryEntry)
}.

Definition historyTab (now : Z) (s : State) : Completion HistoryView :=
  if Nat.ltb 0 (List.length (lectures s)) then
    match historyEntries now (selectedLecture s) (lectures s) with
    | Normal entries => Normal (mkHistory (mockMode s) (Some entries))
    | Throw e => Throw e
    end
  else Normal (mkHistory (mockMode s) None).

(* ================================================================= *)
(** ** Vocabulary of the further properties *)

(** The transcripts of the final, or of the interim, results of a list,
    joined in order. *)
Definition segments (final : bool) (rs : list SpeechRecognitionResult) : string :=
  fold_right String.append ""
    (map transcript (filter (fun r => Bool.eqb (isFinal r) final) rs)).

(** A selection goes with a non-empty list: the selected record's id
    occurs in the list, and something is selected whenever the list is not
    empty. *)
Definition selection_inv (s : State) : Prop :=
  (forall cur, selectedLecture s = Some cur -> In (id cur) (map id (lectures s)))
  /\ (selectedLecture s = None -> lectures s = []).

(** A record whose timestamp is a local closure. *)
Definition localRecord (l : Lecture) : Prop :=
  exists ago, timestamp l = LocalClock ago.

(** Mock mode: the mock user, and a list that ends with the sample
    records and holds local records only. *)
Definition mock_inv (s : State) : Prop :=
  mockMode s = true ->
  userId s = Some "MOCK_USER_ID"
  /\ (exists added, lectures s = added ++ MOCK_LECTURES)
  /\ Forall localRecord (lectures s).

(** [window.__initial_auth_token] when it is truthy: the token the sign-in
    of [setupFirebase] uses, [None] standing for the anonymous sign-in. *)
Definition signInToken (w : Window) : option string :=
  if truthy_opt (__initial_auth_token w) then __initial_auth_token w else None.

(** A user identifier is known. *)
Definition identified (s : State) : Prop := userId s <> None.

(** The settlement of a generation. *)
Definition isSettlement (ev : Event) : bool :=
  match ev with GenerateSettled _ _ _ _ => true | _ => false end.

(** Handling the events of a list in turn, and the condition that each
    one can occur in the state it finds. *)
Fixpoint dispatchAll (w : Window) (evs : list Event) (s : State) : State :=
  match evs with
  | [] => s
  | ev :: rest => dispatchAll w rest (dispatch w ev s)
  end.

Fixpoint allEnabled (w : Window) (evs : list Event) (s : State) : Prop :=
  match evs with
  | [] => True
  | ev :: rest => enabled ev s /\ allEnabled w rest (dispatch w ev s)
  end.

(** The events of a generation. *)
Definition generationEvent (ev : Event) : bool :=
  match ev with
  | ClickGenerate | GenerateSettled _ _ _ _ => true
  | _ => false
  end.

(** The events that write the transcript. *)
Definition transcriptEvent (ev : Event) : bool :=
  match ev with
  | ChangeText _ | ClickRecord | SpeechResult _ => true
  | _ => false
  end.

(** The events that write the list of records. *)
Definition listEvent (ev : Event) : bool :=
  match ev with
  | FirebaseSetup _ | Snapshot _ | SnapshotFailed | GenerateSettled _ _ _ _ => true
  | _ => false
  end.

(** A session on the configured page: signed in, with a transcript. *)
Definition signed_in : State := remote_session neuron_transcript.

(** A store that rejects every write. *)
Definition failing_store : Collaborators :=
  {| Date_now := 1700000000000;
     signIn := fun _ => Normal (Some "uid-1");
     onSnapshot := fun _ => Normal tt;
     GoogleGenAI := Normal tt;
     generateContent := fun _ => Normal (Some neuron_text);
     JSON_parse := parsing neuron_text neuron_payload;
     add := fun _ _ => Throw (mkError (Some "permission-denied")) |}.

(** A service that throws a value without message. *)
Definition silent_failure : Collaborators :=
  collaborators (Throw (mkError None)) no_parse.

(** Handlers that never touch the mode, the user, the list or the
    selection. *)
Definition records_frame (s s' : State) : Prop :=
  mockMode s' = mockMode s
  /\ userId s' = userId s
  /\ lectures s' = lectures s
  /\ selectedLecture s' = selectedLecture s.

(** The session with the record [b] selected, on the configured page with
    a transcript typed in. *)
Definition reading_b : State :=
  dispatch page_with_config (Snapshot [stored "b" "older"]) signed_in.

(** Typed text on a page whose capture was stopped a moment ago: the
    recognition object has not delivered its end event yet. *)
Definition just_stopped : State :=
  dispatch page_without_config (ChangeText "typed after the capture")
    (dispatch page_without_config ClickRecord
       (dispatch page_without_config ClickRecord
          (initialState page_without_config))).

(* ================================================================= *)
(** ** Platform lemmas *)

Lemma trimEnd_blank (s : string) :
  trimEnd s = "" <-> (forall c, In c (list_ascii_of_string s) -> isWhiteSpace c = true).
Proof.
  induction s as [|c s IH]; simpl.
  - split; [intros _ c [] | reflexivity].
  - destruct (trimEnd s) as [|a kept] eqn:E.
    + destruct (isWhiteSpace c) eqn:W.
      * split; [|reflexivity]. intros _ c' [<-|Hin]; [exact W|].
        apply (proj1 IH); [reflexivity | exact Hin].
      * split; [discriminate|]. intros H.
        rewrite (H c (or_introl eq_refl)) in W. discriminate.
    + split; [discriminate|]. intros H.
      assert (String a kept = "") as F
        by (apply IH; intros c' Hc; apply H; right; exact Hc).
      discriminate.
Qed.

Lemma list_ascii_of_string_app (a b : string) :
  list_ascii_of_string (a +++ b) = list_ascii_of_string a ++ list_ascii_of_string b.
Proof. induction a as [|x a IH]; simpl; [reflexivity | f_equal; exact IH]. Qed.

Lemma trimStart_suffix (s : string) :
  exists pre, s = pre +++ trimStart s
              /\ (forall c, In c (list_ascii_of_string pre) -> isWhiteSpace c = true).
Proof.
  induction s as [|c s [pre [E W]]]; simpl.
  - exists "". split; [reflexivity | intros c []].
  - destruct (isWhiteSpace c) eqn:Wc.
    + exists (String c pre). split.
      * simpl. f_equal. exact E.
      * intros c' [<-|Hin]; [exact Wc | apply W; exact Hin].
    + exists "". split; [reflexivity | intros c' []].
Qed.

(** A transcript trims to the empty string exactly when it consists of
    white space. *)
Lemma trim_blank (s : string) :
  trim s = "" <-> (forall c, In c (list_ascii_of_string s) -> isWhiteSpace c = true).
Proof.
  unfold trim. rewrite trimEnd_blank.
  destruct (trimStart_suffix s) as [pre [E W]].
  split; intros H c Hc.
  - rewrite E, list_ascii_of_string_app in Hc.
    apply in_app_or in Hc. destruct Hc as [Hc|Hc]; auto.
  - apply H. rewrite E, list_ascii_of_string_app.
    apply in_or_app. right. exact Hc.
Qed.

Lemma truthy_false (s : string) : truthy s = false <-> s = "".
Proof. destruct s; simpl; split; congruence. Qed.

Lemma failureMessage_nonempty (err : Error) : failureMessage err <> "".
Proof. unfold failureMessage. simpl. discriminate. Qed.

Lemma local_clock_resolved (ago : Z) : resolved (LocalClock ago).
Proof. intros now. discriminate. Qed.

#[local] Hint Resolve failureMessage_nonempty local_clock_resolved : studymate.

(** Every value but [null] and [undefined] can be read. *)
Lemma get_defined (v : Value) (key : string) :
  v <> Null -> v <> Undefined -> exists x, get v key = Normal x.
Proof.
  intros Hn Hu. destruct v; cbn; try (eexists; reflexivity); contradiction.
Qed.

(* ================================================================= *)
(** ** Selection across snapshots *)

Lemma firstOrNull_head (l : list Lecture) : firstOrNull l = hd_error l.
Proof. destruct l; reflexivity. Qed.

Lemma some_id_In (cur : Lecture) (l : list Lecture) :
  existsb (fun x => String.eqb (id x) (id cur)) l = true
  <-> In (id cur) (map id l).
Proof.
  rewrite existsb_exists, in_map_iff. split.
  - intros [x [Hin Heq]]. apply String.eqb_eq in Heq. exists x. split; assumption.
  - intros [x [Heq Hin]]. exists x. split; [assumption | apply String.eqb_eq; assumption].
Qed.

Lemma reselect_present (cur : Lecture) (l : list Lecture) :
  In (id cur) (map id l) -> reselect l (Some cur) = Some cur.
Proof.
  intros H. unfold reselect. apply some_id_In in H. rewrite H. reflexivity.
Qed.

Lemma reselect_absent (cur : Lecture) (l : list Lecture) :
  ~ In (id cur) (map id l) -> reselect l (Some cur) = hd_error l.
Proof.
  intros H. unfold reselect.
  destruct (existsb _ l) eqn:E.
  - apply some_id_In in E. contradiction.
  - apply firstOrNull_head.
Qed.

Lemma snapshotListener_run (docs : list Doc) (s : State) :
  snapshotListener docs s
  = mkRun (Normal tt)
      (set_selectedLecture
         (reselect (map lectureOfDoc docs) (selectedLecture s))
         (set_lectures (map lectureOfDoc docs) s))
      [].
Proof. reflexivity. Qed.

(** C1.  When a snapshot arrives, the list is replaced by it and the
    selection follows one rule: a selected record whose id occurs in the
    snapshot (at any position) stays selected; otherwise the first record
    of the snapshot is selected, and nothing when the snapshot is empty. *)
Theorem snapshot_reconciles_selection (docs : list Doc) (s : State) :
  let snapshot := map lectureOfDoc docs in
  let s' := after (snapshotListener docs s) in
  lectures s' = snapshot
  /\ (forall cur, selectedLecture s = Some cur ->
        In (id cur) (map id snapshot) -> selectedLecture s' = Some cur)
  /\ (forall cur before x rest, selectedLecture s = Some cur ->
        snapshot = before ++ x :: rest -> id x = id cur ->
        selectedLecture s' = Some cur)
  /\ (forall cur, selectedLecture s = Some cur ->
        ~ In (id cur) (map id snapshot) -> selectedLecture s' = hd_error snapshot)
  /\ (selectedLecture s = None -> selectedLecture s' = hd_error snapshot)
  /\ (snapshot = [] ->
        (forall cur, selectedLecture s = Some cur -> ~ In (id cur) (map id snapshot))
        /\ selectedLecture s' = None).
Proof.
  intros snapshot s'. subst s'. rewrite snapshotListener_run. cbn [after].
  cbn [lectures selectedLecture set_selectedLecture set_lectures].
  fold snapshot.
  split; [reflexivity|].
  split; [intros cur -> Hin; apply reselect_present; exact Hin|].
  split.
  { intros cur before x rest -> E Hid. apply reselect_present.
    rewrite E, map_app. apply in_or_app. right. left. exact Hid. }
  split; [intros cur -> Hout; apply reselect_absent; exact Hout|].
  split; [intros ->; apply firstOrNull_head|].
  intros E. rewrite E. split; [intros cur _ []|].
  destruct (selectedLecture s); reflexivity.
Qed.

Lemma snapshot_reconciles_selection_witness :
  let cur := lectureOfDoc (stored "b" "older") in
  selectedLecture selected_b = Some cur
  /\ selectedLecture
       (after (snapshotListener [stored "c" "C"; stored "a" "A"; stored "b" "newer"]
                 selected_b)) = Some cur
  /\ selectedLecture
       (after (snapshotListener [stored "c" "C"; stored "a" "A"] selected_b))
     = Some (lectureOfDoc (stored "c" "C"))
  /\ selectedLecture (after (snapshotListener [] selected_b)) = None.
Proof.
  cbn zeta. split; [reflexivity|]. split; [|split].
  - destruct (snapshot_reconciles_selection
                [stored "c" "C"; stored "a" "A"; stored "b" "newer"] selected_b)
      as (_ & Keep & _).
    apply Keep; [reflexivity | cbn; auto].
  - destruct (snapshot_reconciles_selection
                [stored "c" "C"; stored "a" "A"] selected_b)
      as (_ & _ & _ & Fall & _).
    rewrite (Fall (lectureOfDoc (stored "b" "older")) eq_refl); [reflexivity|].
    cbn. intros [H|[H|[]]]; discriminate.
  - destruct (snapshot_reconciles_selection [] selected_b)
      as (_ & _ & _ & _ & _ & Empty).
    apply Empty. reflexivity.
Defined.

(* ================================================================= *)
(** ** Running [handleGenerate] *)

Section Generate.

Variable w : Window.
Variable c : Collaborators.

(** The first half of the [try] block leaves the component state as it
    is and sends at most the one generation request. *)
Lemma generate_run (text : string) (s : State) :
  after (generate c text s) = s
  /\ (calls (generate c text s) = []
      \/ calls (generate c text s) = [GenerateContent (generateParams text)]).
Proof.
  unfold generate, bind, eval, await, ret. cbn.
  repeat (next_answer; auto).
Qed.

(** Its outcome depends on the collaborators only. *)
Lemma generate_outcome (text : string) (s s0 : State) :
  outcome (generate c text s) = outcome (generate c text s0).
Proof.
  unfold generate, bind, eval, await, ret. cbn.
  repeat (next_answer; auto).
Qed.

(** It yields a record exactly when the service answered with a text, the
    text parsed, and the parsed value could be read. *)
Lemma generate_normal (text : string) (s : State) (d : LectureData) :
  outcome (generate c text s) = Normal d
  <-> exists answer result sm fc,
        GoogleGenAI c = Normal tt
        /\ generateContent c (generateParams text) = Normal (Some answer)
        /\ JSON_parse c (trim answer) = Normal result
        /\ get result "summary" = Normal sm
        /\ get result "flashcards" = Normal fc
        /\ d = lectureData text sm fc.
Proof.
  unfold generate, bind, eval, await, ret. cbn. split.
  - destruct (GoogleGenAI c) as [[]|]; cbn; [|discriminate].
    destruct (generateContent c (generateParams text)) as [[answer|]|]; cbn;
      try discriminate.
    destruct (JSON_parse c (trim answer)) as [result|] eqn:Ep; cbn; [|discriminate].
    destruct (get result "summary") as [sm|] eqn:Es; cbn; [|discriminate].
    destruct (get result "flashcards") as [fc|] eqn:Ef; cbn; [|discriminate].
    intros [= <-]. exists answer, result, sm, fc. repeat split; auto.
  - intros (answer & result & sm & fc & -> & -> & Hp & Hs & Hf & ->). cbn.
    rewrite Hp. cbn. rewrite Hs. cbn. rewrite Hf. reflexivity.
Qed.

(** A record comes with the request sent. *)
Lemma generate_sent (text : string) (s : State) (d : LectureData) :
  outcome (generate c text s) = Normal d ->
  calls (generate c text s) = [GenerateContent (generateParams text)].
Proof.
  unfold generate, bind, eval, await, ret. cbn.
  repeat (next_answer; try discriminate). reflexivity.
Qed.

Lemma addLecture_mock (uid : option string) (d : LectureData) (s : State) :
  addLecture w c uid true d s
  = mkRun (Normal tt)
      (set_selectedLecture (Some (newLecture_mock (Date_now c) d))
         (set_lectures (newLecture_mock (Date_now c) d :: lectures s) s))
      [].
Proof. reflexivity. Qed.

Lemma addLecture_store (uid : option string) (d : LectureData) (s : State) :
  addLecture w c uid false d s
  = mkRun (add c (lecturesPath w (show_userId uid)) (newLecture_store d)) s
      [CollectionAdd (lecturesPath w (show_userId uid)) (newLecture_store d)].
Proof. reflexivity. Qed.

(** The [try] block by cases on its first half. *)
Lemma handleGenerate_try_run (text : string) (uid : option string) (mock : bool)
    (s : State) :
  handleGenerate_try w c text uid mock s
  = match outcome (generate c text s) with
    | Throw e => mkRun (Throw e) s (calls (generate c text s))
    | Normal d =>
        if mock then
          mkRun (Normal tt)
            (set_selectedLecture (Some (newLecture_mock (Date_now c) d))
               (set_lectures (newLecture_mock (Date_now c) d :: lectures s) s))
            (calls (generate c text s))
        else
          mkRun (add c (lecturesPath w (show_userId uid)) (newLecture_store d)) s
            (calls (generate c text s)
             ++ [CollectionAdd (lecturesPath w (show_userId uid)) (newLecture_store d)])
    end.
Proof.
  unfold handleGenerate_try, bind.
  destruct (generate_run text s) as [Hs _].
  destruct (outcome (generate c text s)) as [d|e]; rewrite Hs; [|reflexivity].
  destruct mock.
  - rewrite addLecture_mock. cbn. rewrite app_nil_r. reflexivity.
  - rewrite addLecture_store. reflexivity.
Qed.

(** The [try] block never touches the transcript, the error message, the
    tab or the loading flag. *)
Lemma handleGenerate_try_frame (text : string) (uid : option string) (mock : bool)
    (s : State) :
  let s' := after (handleGenerate_try w c text uid mock s) in
  lectureText s' = lectureText s /\ error s' = error s
  /\ activeTab s' = activeTab s /\ isLoading s' = isLoading s.
Proof.
  cbn zeta. rewrite handleGenerate_try_run.
  destruct (outcome (generate c text s)); [destruct mock|]; cbn; auto.
Qed.

(** The [try] block throws when its first half does, or when the store
    rejects the write of a generated record. *)
Lemma handleGenerate_try_throws (text : string) (uid : option string) (mock : bool)
    (s : State) (e : Error) :
  outcome (handleGenerate_try w c text uid mock s) = Throw e
  <-> outcome (generate c text s) = Throw e
      \/ exists d, outcome (generate c text s) = Normal d /\ mock = false
                   /\ add c (lecturesPath w (show_userId uid)) (newLecture_store d)
                      = Throw e.
Proof.
  rewrite handleGenerate_try_run.
  destruct (outcome (generate c text s)) as [d|e0]; [destruct mock|]; cbn; split.
  - discriminate.
  - intros [H|(d' & _ & H & _)]; discriminate.
  - intros H. right. exists d. auto.
  - intros [H|(d' & [= <-] & _ & H)]; [discriminate | exact H].
  - intros [= ->]. left. reflexivity.
  - intros [[= ->]|(d' & H & _)]; [reflexivity | discriminate].
Qed.

(** The second stretch when the [try] block throws: [catch] and
    [finally] run on the state the answer finds. *)
Lemma handleGenerate_settle_failed (text : string) (uid : option string)
    (mock : bool) (s : State) (e : Error) :
  outcome (handleGenerate_try w c text uid mock s) = Throw e ->
  handleGenerate_settle w c text uid mock s
  = mkRun (Normal tt)
      (set_isLoading false
         (set_activeTab Tab.input
            (set_error (Some (failureMessage e))
               (after (handleGenerate_try w c text uid mock s)))))
      (calls (handleGenerate_try w c text uid mock s)).
Proof.
  intros He.
  unfold handleGenerate_settle, finally, try_catch, bind, setIsLoading, setError,
    setActiveTab, upd.
  rewrite He. cbn. rewrite !app_nil_r. reflexivity.
Qed.

(** A refused request: only the message is set. *)
Lemma handleGenerate_refused (s : State) :
  generateRefused (lectureText s) (userId s) = true ->
  handleGenerate w c s
  = mkRun (Normal tt) (set_error (Some "Lecture text is required.") s) [].
Proof.
  intros H. unfold handleGenerate, withProps. rewrite H. reflexivity.
Qed.

(* ----------------------------------------------------------------- *)
(** *** Accepted requests *)

Section Accepted.

Variable s : State.
Hypothesis accepted : generateRefused (lectureText s) (userId s) = false.

(** The [try] block throws: [catch] and [finally] run. *)
Lemma handleGenerate_failed (e : Error) :
  outcome (attempt w c s) = Throw e ->
  handleGenerate w c s
  = mkRun (Normal tt)
      (set_isLoading false
         (set_activeTab Tab.input
            (set_error (Some (failureMessage e)) (after (attempt w c s)))))
      (calls (attempt w c s)).
Proof.
  intros He. unfold handleGenerate, withProps. rewrite accepted.
  unfold setIsLoading, setError, setActiveTab, finally, try_catch, bind, upd.
  cbn. fold (generating s). fold (attempt w c s). rewrite He. cbn.
  rewrite !app_nil_r. reflexivity.
Qed.

(** The [try] block completes: only [finally] runs. *)
Lemma handleGenerate_succeeded :
  outcome (attempt w c s) = Normal tt ->
  handleGenerate w c s
  = mkRun (Normal tt) (set_isLoading false (after (attempt w c s)))
      (calls (attempt w c s)).
Proof.
  intros He. unfold handleGenerate, withProps. rewrite accepted.
  unfold setIsLoading, setError, setActiveTab, finally, try_catch, bind, upd.
  cbn. fold (generating s). fold (attempt w c s). rewrite He. cbn.
  rewrite He, !app_nil_r. reflexivity.
Qed.

(** The error cell tells how the [try] block ended: empty after a normal
    completion, set after a throw. *)
Lemma handleGenerate_error :
  match outcome (attempt w c s) with
  | Normal _ => error (after (handleGenerate w c s)) = None
  | Throw e => error (after (handleGenerate w c s)) = Some (failureMessage e)
  end.
Proof.
  destruct (outcome (attempt w c s)) as [[]|e] eqn:E.
  - rewrite (handleGenerate_succeeded E). cbn.
    apply (handleGenerate_try_frame (lectureText s) (userId s) (mockMode s)
             (generating s)).
  - rewrite (handleGenerate_failed e E). reflexivity.
Qed.

Lemma handleGenerate_ok :
  error (after (handleGenerate w c s)) = None ->
  outcome (attempt w c s) = Normal tt.
Proof.
  intros E. pose proof handleGenerate_error as X.
  destruct (outcome (attempt w c s)) as [[]|e]; [reflexivity|].
  rewrite X in E. discriminate.
Qed.

(** What a successful run has produced: in mock mode the new first record
    of the list, which is also selected; otherwise the document handed to
    the store.  Either one carries the values read from the payload. *)
Lemma handleGenerate_record :
  error (after (handleGenerate w c s)) = None ->
  exists d,
    outcome (generate c (lectureText s) (generating s)) = Normal d
    /\ if mockMode s then
         lectures (after (handleGenerate w c s))
         = newLecture_mock (Date_now c) d :: lectures s
         /\ selectedLecture (after (handleGenerate w c s))
            = Some (newLecture_mock (Date_now c) d)
         /\ calls (handleGenerate w c s)
            = [GenerateContent (generateParams (lectureText s))]
       else
         lectures (after (handleGenerate w c s)) = lectures s
         /\ calls (handleGenerate w c s)
            = [GenerateContent (generateParams (lectureText s));
               CollectionAdd (lecturesPath w (show_userId (userId s)))
                 (newLecture_store d)].
Proof.
  intros E. pose proof (handleGenerate_ok E) as T.
  rewrite (handleGenerate_succeeded T). unfold attempt in T |- *. cbn.
  rewrite handleGenerate_try_run in T |- *.
  destruct (outcome (generate c (lectureText s) (generating s))) as [d|e] eqn:G;
    [|discriminate].
  exists d. split; [reflexivity|].
  rewrite (generate_sent (lectureText s) (generating s) d G).
  destruct (mockMode s); cbn; auto.
Qed.

(** The values read from the payload, once the answers are known. *)
Lemma handleGenerate_payload (answer : string) (result : Value) (d : LectureData) :
  generateContent c (generateParams (lectureText s)) = Normal (Some answer) ->
  JSON_parse c (trim answer) = Normal result ->
  outcome (generate c (lectureText s) (generating s)) = Normal d ->
  get result "summary" = Normal (ld_summary d)
  /\ get result "flashcards" = Normal (ld_flashcards d).
Proof.
  intros A P G. apply generate_normal in G.
  destruct G as (answer' & result' & sm & fc & _ & A' & P' & Hs & Hf & ->).
  rewrite A in A'. injection A' as <-.
  rewrite P in P'. injection P' as <-.
  split; assumption.
Qed.

(** C5.  When the [try] block of an accepted generate request throws (the
    service rejects the request, its answer cannot be read, or the store
    rejects the write), the run ends with a non-empty error message built
    from the thrown value, the input tab active, the loading flag down,
    and the transcript as it was before the request.  The same holds when
    other events were handled while the answer was awaited: the failure
    is recorded in the state [later] that the answer finds, whose
    transcript it leaves as it is. *)
Theorem failed_generation_state (e : Error) :
  outcome (attempt w c s) = Throw e ->
  let s' := after (handleGenerate w c s) in
  (error s' = Some (failureMessage e)
   /\ failureMessage e <> ""
   /\ activeTab s' = Tab.input
   /\ isLoading s' = false
   /\ lectureText s' = lectureText s)
  /\ forall later,
       let settled :=
         after (handleGenerate_settle w c (lectureText s) (userId s) (mockMode s)
                  later) in
       error settled = Some (failureMessage e)
       /\ activeTab settled = Tab.input
       /\ isLoading settled = false
       /\ lectureText settled = lectureText later.
Proof.
  intros E s'. subst s'. split.
  - rewrite (handleGenerate_failed e E).
    cbn [after error activeTab isLoading lectureText
         set_isLoading set_activeTab set_error].
    repeat split; auto with studymate.
    apply (handleGenerate_try_frame (lectureText s) (userId s) (mockMode s)
             (generating s)).
  - intros later settled. subst settled.
    assert (outcome (handleGenerate_try w c (lectureText s) (userId s) (mockMode s)
                       later) = Throw e) as E'.
    { unfold attempt in E. rewrite handleGenerate_try_run in E |- *.
      rewrite (generate_outcome (lectureText s) later (generating s)).
      destruct (outcome (generate c (lectureText s) (generating s)));
        [destruct (mockMode s)|]; exact E. }
    rewrite (handleGenerate_settle_failed _ _ _ _ e E').
    cbn [after error activeTab isLoading lectureText
         set_isLoading set_activeTab set_error].
    repeat split.
    apply (handleGenerate_try_frame (lectureText s) (userId s) (mockMode s) later).
Qed.

(** C2, as the code has it.  For an accepted request that the service
    answers with a text: when [JSON.parse] throws on the trimmed text, or
    yields [null], the run ends with the error message built from the
    cause, no record is added or selected and nothing is written to the
    store.  Any other parsed value is accepted without a look at its
    shape: its [summary] and [flashcards] members, whatever they are, go
    into the new record (mock mode) or into the document handed to the
    store. *)
Theorem unparsable_payload_fails (answer : string) :
  GoogleGenAI c = Normal tt ->
  generateContent c (generateParams (lectureText s)) = Normal (Some answer) ->
  let r := handleGenerate w c s in
  let failedWith (e : Error) :=
    error (after r) = Some (failureMessage e)
    /\ lectures (after r) = lectures s
    /\ selectedLecture (after r) = selectedLecture s
    /\ calls r = [GenerateContent (generateParams (lectureText s))] in
  (forall e, JSON_parse c (trim answer) = Throw e -> failedWith e)
  /\ (JSON_parse c (trim answer) = Normal Null ->
        failedWith (TypeError "Cannot read properties of null (reading 'summary')"))
  /\ (forall result, JSON_parse c (trim answer) = Normal result ->
        result <> Null -> result <> Undefined ->
        exists sm fc,
          get result "summary" = Normal sm
          /\ get result "flashcards" = Normal fc
          /\ (mockMode s = true ->
                error (after r) = None
                /\ lectures (after r)
                   = newLecture_mock (Date_now c) (lectureData (lectureText s) sm fc)
                     :: lectures s)
          /\ (mockMode s = false ->
                calls r
                = [GenerateContent (generateParams (lectureText s));
                   CollectionAdd (lecturesPath w (show_userId (userId s)))
                     (newLecture_store (lectureData (lectureText s) sm fc))])).
Proof.
  intros G A r failedWith.
  assert (forall e, outcome (generate c (lectureText s) (generating s)) = Throw e ->
                    calls (generate c (lectureText s) (generating s))
                    = [GenerateContent (generateParams (lectureText s))] ->
                    failedWith e) as F.
  { intros e E C. subst failedWith r. cbn beta.
    assert (outcome (attempt w c s) = Throw e) as T
      by (apply handleGenerate_try_throws; left; exact E).
    rewrite (handleGenerate_failed e T). unfold attempt. cbn.
    rewrite handleGenerate_try_run, E. cbn. auto. }
  split; [|split].
  - intros e P. apply F; unfold generate, bind, eval, await, ret; cbn;
      rewrite G; cbn; rewrite A; cbn; rewrite P; reflexivity.
  - intros P. apply F; unfold generate, bind, eval, await, ret; cbn;
      rewrite G; cbn; rewrite A; cbn; rewrite P; reflexivity.
  - intros result P Hn Hu.
    destruct (get_defined result "summary" Hn Hu) as [sm Hs].
    destruct (get_defined result "flashcards" Hn Hu) as [fc Hf].
    exists sm, fc. split; [exact Hs|]. split; [exact Hf|].
    assert (outcome (generate c (lectureText s) (generating s))
            = Normal (lectureData (lectureText s) sm fc)) as E.
    { apply generate_normal. exists answer, result, sm, fc. repeat split; auto. }
    pose proof (generate_sent (lectureText s) (generating s) _ E) as C.
    split; intros M.
    + assert (outcome (attempt w c s) = Normal tt) as T
        by (unfold attempt; rewrite handleGenerate_try_run, E, M; reflexivity).
      subst r. rewrite (handleGenerate_succeeded T). unfold attempt. cbn.
      rewrite handleGenerate_try_run, E, M. cbn. auto.
    + subst r. destruct (outcome (attempt w c s)) as [[]|e] eqn:T.
      * rewrite (handleGenerate_succeeded T). unfold attempt. cbn.
        rewrite handleGenerate_try_run, E, M, C. reflexivity.
      * rewrite (handleGenerate_failed e T). unfold attempt. cbn.
        rewrite handleGenerate_try_run, E, M, C. reflexivity.
Qed.

(** C6.  After a successful generation whose parsed payload has the
    flashcards array [cards], the created record (the new first and
    selected record in mock mode, the document handed to the store
    otherwise) has exactly [cards] as its flashcards: the same number of
    entries, the same entry at every position, hence the same term and
    definition in the same order. *)
Theorem flashcards_carried_verbatim (answer : string) (result : Value)
    (cards : list Value) :
  error (after (handleGenerate w c s)) = None ->
  generateContent c (generateParams (lectureText s)) = Normal (Some answer) ->
  JSON_parse c (trim answer) = Normal result ->
  get result "flashcards" = Normal (Array cards) ->
  let r := handleGenerate w c s in
  let verbatim (created : Value) :=
    created = Array cards
    /\ List.length (cardsOf created) = List.length cards
    /\ (forall i, nth_error (cardsOf created) i = nth_error cards i)
    /\ (forall i card, nth_error cards i = Some card ->
          exists card', nth_error (cardsOf created) i = Some card'
                        /\ get card' "term" = get card "term"
                        /\ get card' "definition" = get card "definition") in
  (mockMode s = true ->
     exists created,
       hd_error (lectures (after r)) = Some created
       /\ selectedLecture (after r) = Some created
       /\ verbatim (flashcards created))
  /\ (mockMode s = false ->
        exists path doc,
          calls r = [GenerateContent (generateParams (lectureText s));
                     CollectionAdd path doc]
          /\ verbatim (nl_flashcards doc)).
Proof.
  intros E A P F r verbatim. subst r.
  destruct (handleGenerate_record E) as (d & G & R).
  destruct (handleGenerate_payload answer result d A P G) as [_ F'].
  rewrite F in F'. injection F' as F'.
  assert (verbatim (Array cards)) as V.
  { subst verbatim. cbn. repeat split.
    intros i card Hi. exists card. auto. }
  rewrite F' in V.
  split; intros M; rewrite M in R.
  - destruct R as (L & S & _). eexists. rewrite L, S. cbn.
    split; [reflexivity|]. split; [reflexivity | exact V].
  - destruct R as (_ & C). do 2 eexists. split; [exact C | exact V].
Qed.

End Accepted.

(* ----------------------------------------------------------------- *)
(** *** Refused requests *)

Lemma blank_refused (s : State) :
  trim (lectureText s) = "" -> generateRefused (lectureText s) (userId s) = true.
Proof. intros H. unfold generateRefused. rewrite H. reflexivity. Qed.

(** C4.  With a transcript that trims to the empty string, [handleGenerate]
    sends no request at all and shows the message "Lecture text is
    required."; nothing else in the state changes.  The generate button is
    disabled for such a transcript as well. *)
Theorem blank_transcript_refused (s : State) :
  trim (lectureText s) = "" ->
  calls (handleGenerate w c s) = []
  /\ error (after (handleGenerate w c s)) = Some "Lecture text is required."
  /\ after (handleGenerate w c s) = set_error (Some "Lecture text is required.") s
  /\ isGenerateDisabled s = true.
Proof.
  intros H. rewrite (handleGenerate_refused s (blank_refused s H)). cbn.
  repeat split. unfold isGenerateDisabled. rewrite H. reflexivity.
Qed.

(** C10.  While no user identifier is known ([userId] is null),
    [handleGenerate] refuses every request, blank transcript or not: it
    sends nothing to the generative service or to the store, leaves the
    records as they are, and shows the very message of the blank-transcript
    case. *)
Theorem unresolved_user_refused (s : State) :
  userId s = None ->
  calls (handleGenerate w c s) = []
  /\ after (handleGenerate w c s) = set_error (Some "Lecture text is required.") s
  /\ lectures (after (handleGenerate w c s)) = lectures s
  /\ error (after (handleGenerate w c s)) = Some "Lecture text is required."
  /\ (forall blank, trim (lectureText blank) = "" ->
        error (after (handleGenerate w c blank))
        = error (after (handleGenerate w c s))).
Proof.
  intros H.
  assert (generateRefused (lectureText s) (userId s) = true) as R
    by (unfold generateRefused; rewrite H; apply orb_true_r).
  rewrite (handleGenerate_refused s R). cbn.
  repeat split. intros blank Hb.
  rewrite (handleGenerate_refused blank (blank_refused blank Hb)). reflexivity.
Qed.

(* ----------------------------------------------------------------- *)
(** *** The in-memory list *)

(** C7.  In mock mode, adding the record [R] completes at once, without
    a request to any collaborator: the list grows by exactly one, its new
    first element carries the four members of [R], an identifier made
    locally from the clock and a timestamp that yields a date whenever it
    is asked.  This is what a successful [handleGenerate] run leaves in
    mock mode. *)
Theorem fallback_add_prepends (R : LectureData) :
  (forall (uid : option string) (s : State),
     let r := addLecture w c uid true R s in
     outcome r = Normal tt
     /\ calls r = []
     /\ List.length (lectures (after r)) = S (List.length (lectures s))
     /\ exists newLecture,
          lectures (after r) = newLecture :: lectures s
          /\ hd_error (lectures (after r)) = Some newLecture
          /\ selectedLecture (after r) = Some newLecture
          /\ title newLecture = ld_title R
          /\ summary newLecture = ld_summary R
          /\ flashcards newLecture = ld_flashcards R
          /\ originalText newLecture = ld_originalText R
          /\ id newLecture = "mock-" +++ show (Date_now c)
          /\ resolved (timestamp newLecture))
  /\ (forall s : State,
        generateRefused (lectureText s) (userId s) = false ->
        mockMode s = true ->
        outcome (generate c (lectureText s) (generating s)) = Normal R ->
        lectures (after (handleGenerate w c s))
        = lectures (after (addLecture w c (userId s) true R s))
        /\ forall path doc, ~ In (CollectionAdd path doc) (calls (handleGenerate w c s))).
Proof.
  split.
  - intros uid s r. subst r. rewrite addLecture_mock. cbn.
    repeat split. eexists. repeat split. cbn. auto with studymate.
  - intros s H M G.
    assert (outcome (attempt w c s) = Normal tt) as T
      by (unfold attempt; rewrite handleGenerate_try_run, G, M; reflexivity).
    rewrite (handleGenerate_succeeded s H T). unfold attempt. cbn.
    rewrite handleGenerate_try_run, G, M. cbn.
    rewrite (generate_sent (lectureText s) (generating s) R G).
    split; [reflexivity|].
    intros path doc [X|[]]. discriminate.
Qed.

(** A run of [handleGenerate] is its two stretches, one after the
    other. *)
Lemma handleGenerate_phases (s : State) :
  handleGenerate w c s
  = if generateRefused (lectureText s) (userId s)
    then handleGenerate_begin s
    else (handleGenerate_begin ;;
          handleGenerate_settle w c (lectureText s) (userId s) (mockMode s)) s.
Proof.
  unfold handleGenerate, handleGenerate_begin, handleGenerate_settle, withProps,
    bind.
  destruct (generateRefused (lectureText s) (userId s)) eqn:R; [reflexivity|].
  unfold setIsLoading, setError, setActiveTab, upd. cbn.
  rewrite !app_nil_r. reflexivity.
Qed.

(** Neither stretch touches the recognition object, the recording flag
    or the interim text. *)
Lemma handleGenerate_begin_frame (s : State) :
  capture_frame s (after (handleGenerate_begin s)).
Proof.
  unfold handleGenerate_begin, withProps.
  destruct (generateRefused (lectureText s) (userId s)); repeat split.
Qed.

Lemma handleGenerate_settle_frame (text : string) (uid : option string)
    (mock : bool) (s : State) :
  capture_frame s (after (handleGenerate_settle w c text uid mock s)).
Proof.
  unfold handleGenerate_settle, finally, try_catch, bind, setIsLoading, setError,
    setActiveTab, upd.
  rewrite handleGenerate_try_run.
  destruct (outcome (generate c text s)) as [d|e]; [destruct mock|]; cbn.
  - repeat split.
  - destruct (add c _ _); repeat split.
  - repeat split.
Qed.

End Generate.

(** C3, as the code has it.  The seeded sample record has a flashcards
    list whose entries all have a non-empty term.  A record created by a
    successful generation holds the [flashcards] member of the parsed
    payload unchanged, in either mode: in mock mode it is the new first
    record of the list, which keeps the invariant exactly when that member
    has it; otherwise it is the document written to the store, and the
    record a snapshot builds from that document, which have the invariant
    exactly when that member has it.  The component itself checks
    nothing. *)
Theorem flashcards_invariant_follows_payload :
  Forall (fun l => spec_flashcardsInvariant (flashcards l) = true) MOCK_LECTURES
  /\ forall (w : Window) (c : Collaborators) (s : State)
       (answer : string) (result fc : Value),
       generateRefused (lectureText s) (userId s) = false ->
       error (after (handleGenerate w c s)) = None ->
       generateContent c (generateParams (lectureText s)) = Normal (Some answer) ->
       JSON_parse c (trim answer) = Normal result ->
       get result "flashcards" = Normal fc ->
       (mockMode s = true ->
          exists created,
            lectures (after (handleGenerate w c s)) = created :: lectures s
            /\ flashcards created = fc
            /\ (Forall (fun l => spec_flashcardsInvariant (flashcards l) = true)
                  (lectures s) ->
                (Forall (fun l => spec_flashcardsInvariant (flashcards l) = true)
                   (lectures (after (handleGenerate w c s)))
                 <-> spec_flashcardsInvariant fc = true)))
       /\ (mockMode s = false ->
             exists path doc,
               calls (handleGenerate w c s)
               = [GenerateContent (generateParams (lectureText s));
                  CollectionAdd path doc]
               /\ nl_flashcards doc = fc
               /\ (spec_flashcardsInvariant (nl_flashcards doc) = true
                   <-> spec_flashcardsInvariant fc = true)
               /\ forall i,
                    flashcards (lectureOfDoc (mkDoc i doc)) = fc
                    /\ (spec_flashcardsInvariant
                          (flashcards (lectureOfDoc (mkDoc i doc))) = true
                        <-> spec_flashcardsInvariant fc = true)).
Proof.
  split.
  - repeat constructor.
  - intros w c s answer result fc H E A P F.
    destruct (handleGenerate_record w c s H E) as (d & G & R).
    destruct (handleGenerate_payload c s answer result d A P G) as [_ F'].
    rewrite F in F'. injection F' as F'.
    split; intros M; rewrite M in R.
    + destruct R as (L & _ & _).
      eexists. split; [exact L|]. split; [symmetry; exact F'|].
      intros Hold. rewrite L. split.
      * intros Hall. inversion Hall as [|? ? Hd Htl]. cbn in Hd.
        rewrite F'. exact Hd.
      * intros Hfc. constructor; [cbn; rewrite <- F'; exact Hfc | assumption].
    + destruct R as (_ & C).
      do 2 eexists. split; [exact C|]. cbn. rewrite <- F'.
      split; [reflexivity|]. split; [reflexivity|].
      intros i. split; reflexivity.
Qed.

(* ================================================================= *)
(** ** The generation scenarios *)

Lemma blank_transcript_refused_witness :
  trim (lectureText (fallback_session "   ")) = ""
  /\ calls (handleGenerate page_without_config rejecting (fallback_session "   ")) = []
  /\ error (after (handleGenerate page_without_config rejecting (fallback_session "   ")))
     = Some "Lecture text is required.".
Proof.
  split; [reflexivity|].
  destruct (blank_transcript_refused page_without_config rejecting
              (fallback_session "   ") eq_refl) as (Hc & He & _).
  split; [exact Hc | exact He].
Defined.

Lemma unresolved_user_refused_witness :
  userId (early_session neuron_transcript) = None
  /\ trim (lectureText (early_session neuron_transcript)) <> ""
  /\ calls (handleGenerate page_with_config rejecting
              (early_session neuron_transcript)) = []
  /\ error (after (handleGenerate page_with_config rejecting
                     (early_session neuron_transcript)))
     = Some "Lecture text is required.".
Proof.
  split; [reflexivity|]. split; [discriminate|].
  destruct (unresolved_user_refused page_with_config rejecting
              (early_session neuron_transcript) eq_refl)
    as (Hc & _ & _ & He & _).
  split; [exact Hc | exact He].
Defined.

Lemma failed_generation_state_witness :
  let s := fallback_session neuron_transcript in
  let s' := after (handleGenerate page_without_config rejecting s) in
  error s' = Some "An error occurred during generation: quota exceeded"
  /\ activeTab s' = Tab.input
  /\ isLoading s' = false
  /\ lectureText s' = neuron_transcript.
Proof.
  destruct (failed_generation_state page_without_config rejecting
              (fallback_session neuron_transcript) eq_refl
              (mkError (Some "quota exceeded")) eq_refl)
    as ((He & _ & Ht & Hl & Hx) & _).
  repeat split; assumption.
Defined.

(** A payload that parses to the empty object has neither a summary nor
    flashcards, yet the run ends without an error and with a new record
    whose [summary] and [flashcards] are undefined. *)
Lemma shape_violation_accepted :
  let s := fallback_session neuron_transcript in
  let r := handleGenerate page_without_config empty_object_service s in
  generateRefused (lectureText s) (userId s) = false
  /\ generateContent empty_object_service (generateParams (lectureText s))
     = Normal (Some "{}")
  /\ JSON_parse empty_object_service (trim "{}") = Normal (Object [])
  /\ spec_requiredShape (Object []) = false
  /\ error (after r) = None
  /\ lectures (after r)
     = {| id := "mock-1700000000000";
          title := "Neurons transmit signals via synapses....";
          summary := Undefined;
          flashcards := Undefined;
          timestamp := LocalClock 0;
          originalText := neuron_transcript |} :: MOCK_LECTURES.
Proof. repeat split. Qed.

Lemma unparsable_payload_fails_witness :
  let s := fallback_session neuron_transcript in
  let c := collaborators (Normal (Some "{")) no_parse in
  let r := handleGenerate page_without_config c s in
  error (after r)
  = Some "An error occurred during generation: Unexpected end of JSON input"
  /\ lectures (after r) = lectures s
  /\ calls r = [GenerateContent (generateParams neuron_transcript)].
Proof.
  destruct (unparsable_payload_fails page_without_config
              (collaborators (Normal (Some "{")) no_parse)
              (fallback_session neuron_transcript) eq_refl "{" eq_refl eq_refl)
    as (F & _ & _).
  destruct (F (mkError (Some "Unexpected end of JSON input")) eq_refl)
    as (He & Hl & _ & Hc).
  repeat split; assumption.
Defined.

(** A payload of the required shape with an empty term: the run succeeds
    and the record it adds has a flashcard with an empty term. *)
Lemma empty_term_record_created :
  let s := fallback_session neuron_transcript in
  let r := handleGenerate page_without_config empty_term_service s in
  generateRefused (lectureText s) (userId s) = false
  /\ generateContent empty_term_service (generateParams (lectureText s))
     = Normal (Some empty_term_text)
  /\ JSON_parse empty_term_service (trim empty_term_text) = Normal empty_term_payload
  /\ spec_requiredShape empty_term_payload = true
  /\ error (after r) = None
  /\ exists created,
       lectures (after r) = created :: MOCK_LECTURES
       /\ flashcards created = Array [Flashcard "" "d"]
       /\ spec_flashcardsInvariant (flashcards created) = false.
Proof.
  repeat split. eexists. repeat split.
Qed.

Lemma flashcards_invariant_follows_payload_witness :
  let s := fallback_session neuron_transcript in
  let s' := after (handleGenerate page_without_config neuron_service s) in
  let remote := remote_session neuron_transcript in
  (Forall (fun l => spec_flashcardsInvariant (flashcards l) = true) (lectures s')
   /\ exists created,
        lectures s' = created :: lectures s
        /\ flashcards created = Array [Flashcard "Neuron" "..."])
  /\ (mockMode remote = false
      /\ exists path doc,
           calls (handleGenerate page_with_config empty_term_service remote)
           = [GenerateContent (generateParams neuron_transcript);
              CollectionAdd path doc]
           /\ nl_flashcards doc = Array [Flashcard "" "d"]
           /\ spec_flashcardsInvariant (nl_flashcards doc) = false).
Proof.
  split.
  - destruct (proj1 (proj2 flashcards_invariant_follows_payload page_without_config
                       neuron_service (fallback_session neuron_transcript)
                       neuron_text neuron_payload (Array [Flashcard "Neuron" "..."])
                       eq_refl eq_refl eq_refl eq_refl eq_refl) eq_refl)
      as (created & L & F & I).
    split.
    + apply I; [exact (proj1 flashcards_invariant_follows_payload) | reflexivity].
    + exists created. split; assumption.
  - split; [reflexivity|].
    destruct (proj2 (proj2 flashcards_invariant_follows_payload page_with_config
                       empty_term_service (remote_session neuron_transcript)
                       empty_term_text empty_term_payload (Array [Flashcard "" "d"])
                       eq_refl eq_refl eq_refl eq_refl eq_refl) eq_refl)
      as (path & doc & C & F & _).
    exists path, doc. split; [exact C|]. split; [exact F|].
    rewrite F. reflexivity.
Defined.

Lemma flashcards_carried_verbatim_witness :
  let s := fallback_session neuron_transcript in
  let s' := after (handleGenerate page_without_config neuron_service s) in
  exists created,
    hd_error (lectures s') = Some created
    /\ selectedLecture s' = Some created
    /\ flashcards created = Array [Flashcard "Neuron" "..."]
    /\ List.length (cardsOf (flashcards created)) = 1.
Proof.
  destruct (proj1 (flashcards_carried_verbatim page_without_config neuron_service
                     (fallback_session neuron_transcript) eq_refl
                     neuron_text neuron_payload [Flashcard "Neuron" "..."]
                     eq_refl eq_refl eq_refl eq_refl) eq_refl)
    as (created & Hh & Hs & Hv & Hl & _).
  exists created. repeat split; assumption.
Defined.

Lemma fallback_add_prepends_witness :
  let s := fallback_session neuron_transcript in
  let s' := after (handleGenerate page_without_config neuron_service s) in
  List.length (lectures s') = 2
  /\ hd_error (lectures s')
     = Some {| id := "mock-1700000000000";
               title := "Neurons transmit signals via synapses....";
               summary := Str "...";
               flashcards := Array [Flashcard "Neuron" "..."];
               timestamp := LocalClock 0;
               originalText := neuron_transcript |}.
Proof.
  pose proof (fallback_add_prepends page_without_config neuron_service
                (lectureData neuron_transcript (Str "...")
                   (Array [Flashcard "Neuron" "..."]))) as [A G].
  destruct (G (fallback_session neuron_transcript) eq_refl eq_refl eq_refl) as [L _].
  destruct (A (Some "MOCK_USER_ID") (fallback_session neuron_transcript))
    as (_ & _ & Hlen & _).
  cbn zeta. rewrite L. split; [exact Hlen | reflexivity].
Defined.

(* ================================================================= *)
(** ** Startup without a store configuration *)

Lemma configMissing_true (w : Window) :
  firebase w = false
  \/ __firebase_config w = None
  \/ (exists cfg, __firebase_config w = Some cfg
                  /\ (apiKey cfg = None \/ apiKey cfg = Some "")) ->
  configMissing w = true.
Proof.
  unfold configMissing.
  intros [->|[->|(cfg & -> & [->| ->])]]; cbn;
    try reflexivity; apply orb_true_r.
Qed.

(** C8.  When the page has no store configuration at startup (no store
    script, no configuration object, or one without an API key), the setup
    sends no request, turns mock mode on, makes the record list the one
    built-in sample record and selects that record. *)
Theorem missing_config_falls_back (w : Window) (c : Collaborators) :
  firebase w = false
  \/ __firebase_config w = None
  \/ (exists cfg, __firebase_config w = Some cfg
                  /\ (apiKey cfg = None \/ apiKey cfg = Some "")) ->
  let r := setupFirebase w c (initialState w) in
  calls r = []
  /\ mockMode (after r) = true
  /\ exists sample,
       MOCK_LECTURES = [sample]
       /\ lectures (after r) = [sample]
       /\ selectedLecture (after r) = Some sample.
Proof.
  intros H r. subst r. unfold setupFirebase.
  rewrite (configMissing_true w H). cbn.
  repeat split. eexists. repeat split.
Qed.

Lemma missing_config_falls_back_witness :
  let r := setupFirebase page_without_config rejecting
             (initialState page_without_config) in
  __firebase_config page_without_config = None
  /\ mockMode (after r) = true
  /\ List.length (lectures (after r)) = 1
  /\ selectedLecture (after r) = hd_error MOCK_LECTURES.
Proof.
  destruct (missing_config_falls_back page_without_config rejecting
              (or_intror (or_introl eq_refl)))
    as (_ & Hm & sample & HM & Hl & Hs).
  cbn zeta. split; [reflexivity|]. split; [exact Hm|].
  rewrite Hl, Hs, HM. split; reflexivity.
Defined.

(* ================================================================= *)
(** ** Capture *)

Lemma setupMockMode_frame (s : State) : capture_frame s (after (setupMockMode s)).
Proof. repeat split. Qed.

Lemma setupFirebase_frame (w : Window) (c : Collaborators) (s : State) :
  capture_frame s (after (setupFirebase w c s)).
Proof.
  unfold setupFirebase. destruct (configMissing w); [apply setupMockMode_frame|].
  unfold try_catch, bind, await. cbn.
  destruct (signIn c _) as [[uid|]|]; cbn; try (repeat split).
  all: destruct (onSnapshot c _); cbn; reflexivity.
Qed.

Lemma frame_keeps_inv (s s' : State) :
  capture_frame s s' -> recognition_inv s -> recognition_inv s'.
Proof.
  intros (Hr & Hi & Ht) [I1 I2]. unfold recognition_inv.
  rewrite Hr, Hi, Ht. split; assumption.
Qed.

(** The toggle, by cases on the flag and on the recognition object. *)
Lemma toggle_stop (s : State) :
  isRecording s = true ->
  handleToggleRecording s
  = mkRun (Normal tt)
      (set_isRecording false
         (match recognitionRef s with
          | Some Listening => set_recognitionRef (Some Stopping) s
          | _ => s
          end))
      [].
Proof.
  intros H. unfold handleToggleRecording, withProps. rewrite H.
  unfold bind, recognition_stop, setIsRecording, upd, ret.
  destruct (recognitionRef s) as [[]|]; reflexivity.
Qed.

Lemma toggle_start (s : State) :
  isRecording s = false ->
  let cleared := set_interimTranscript "" (set_lectureText "" s) in
  after (handleToggleRecording s)
  = match recognitionRef s with
    | None => set_isRecording true cleared
    | Some r =>
        if started r then cleared
        else set_isRecording true (set_recognitionRef (Some Listening) cleared)
    end.
Proof.
  intros H. unfold handleToggleRecording, withProps. rewrite H.
  unfold bind, setLectureText, setInterimTranscript, setIsRecording, upd,
    recognition_start. cbn.
  destruct (recognitionRef s) as [[]|]; reflexivity.
Qed.

Lemma onresult_ref (event : SpeechRecognitionEvent) (s : State) :
  recognitionRef (after (onresult event s)) = recognitionRef s
  /\ isRecording (after (onresult event s)) = isRecording s.
Proof.
  unfold onresult. destruct (collect _ "" ""). split; reflexivity.
Qed.

(** The end event, from any state: the flag is lowered, the interim text
    emptied, the transcript kept, the recognition object idle again. *)
Lemma speech_end_run (w : Window) (s : State) :
  let s' := dispatch w SpeechEnd s in
  isRecording s' = false
  /\ interimTranscript s' = ""
  /\ lectureText s' = lectureText s
  /\ (forall r, recognitionRef s' = Some r -> r = Idle).
Proof.
  unfold dispatch, handler, recognition_ended, onend, bind, setIsRecording,
    setInterimTranscript, upd, ret.
  destruct (recognitionRef s) as [r0|] eqn:R; cbn; repeat split.
  - intros r [= <-]. reflexivity.
  - rewrite R. discriminate.
Qed.

Lemma reachable_recognition_inv (w : Window) (s : State) :
  reachable w s -> recognition_inv s.
Proof.
  induction 1 as [|s ev Hreach IH Hen].
  - split; [reflexivity | discriminate].
  - destruct ev; unfold dispatch, handler.
    + apply (frame_keeps_inv s); [apply setupFirebase_frame | exact IH].
    + apply (frame_keeps_inv s); [repeat split | exact IH].
    + apply (frame_keeps_inv s); [apply setupMockMode_frame | exact IH].
    + apply (frame_keeps_inv s); [repeat split | exact IH].
    + apply (frame_keeps_inv s); [repeat split | exact IH].
    + destruct IH as [I1 I2]. destruct (isRecording s) eqn:Rec.
      * rewrite (toggle_stop s Rec). unfold recognition_inv.
        destruct (recognitionRef s) as [[]|] eqn:Ref; cbn; rewrite ?Ref;
          (split; [auto; discriminate | discriminate]).
      * rewrite (toggle_start s Rec). unfold recognition_inv.
        destruct (recognitionRef s) as [[]|] eqn:Ref; cbn; rewrite ?Ref, ?Rec.
        -- split; [discriminate | intros _ r [= <-]; reflexivity].
        -- split; discriminate.
        -- split; discriminate.
        -- split; [reflexivity | discriminate].
    + apply (frame_keeps_inv s); [apply handleGenerate_begin_frame | exact IH].
    + apply (frame_keeps_inv s); [apply handleGenerate_settle_frame | exact IH].
    + apply (frame_keeps_inv s); [repeat split | exact IH].
    + destruct Hen as (r & Ref & St). destruct IH as [I1 I2].
      destruct (onresult_ref event s) as [Hr Hi].
      split.
      * rewrite Hr, Ref. discriminate.
      * rewrite Hr, Hi. exact I2.
    + destruct (speech_end_run w s) as (Hrec & Hint & _ & _).
      unfold dispatch, handler in Hrec, Hint.
      split; [intros _; exact Hint | rewrite Hrec; discriminate].
Qed.

(** C9, as the code has it.  In every state the component can reach:
    pressing the record button while not recording empties the transcript
    and the interim text (and starts an idle recognition object, raising
    the flag); pressing it while recording lowers the flag, asks the
    recognition object to stop and leaves both the transcript and the
    interim text as they are; the interim text is emptied by the end event
    that the stop request brings, which keeps the transcript, in whatever
    state that event finds (results delivered in between included); on a
    page without recognition object there is no such event and the interim
    text is empty already. *)
Theorem toggle_recording_buffers (w : Window) (s : State) :
  reachable w s ->
  let s' := dispatch w ClickRecord s in
  (isRecording s = false ->
     lectureText s' = "" /\ interimTranscript s' = ""
     /\ (recognitionRef s = Some Idle ->
           recognitionRef s' = Some Listening /\ isRecording s' = true))
  /\ (isRecording s = true ->
        isRecording s' = false
        /\ lectureText s' = lectureText s
        /\ interimTranscript s' = interimTranscript s
        /\ (recognitionRef s = None ->
              recognitionRef s' = None /\ interimTranscript s' = "")
        /\ (recognitionRef s <> None ->
              recognitionRef s' = Some Stopping
              /\ enabled SpeechEnd s'
              /\ interimTranscript (dispatch w SpeechEnd s') = ""
              /\ lectureText (dispatch w SpeechEnd s') = lectureText s)
        /\ (forall later,
              interimTranscript (dispatch w SpeechEnd later) = ""
              /\ lectureText (dispatch w SpeechEnd later) = lectureText later)).
Proof.
  intros Hreach s'. subst s'.
  destruct (reachable_recognition_inv w s Hreach) as [I1 I2].
  change (dispatch w ClickRecord s) with (after (handleToggleRecording s)).
  split; intros Rec.
  - rewrite (toggle_start s Rec).
    destruct (recognitionRef s) as [[]|] eqn:Ref; cbn;
      (split; [reflexivity|]); (split; [reflexivity|]);
      intros [=]. split; reflexivity.
  - rewrite (toggle_stop s Rec). cbn [after].
    assert (forall later,
              interimTranscript (dispatch w SpeechEnd later) = ""
              /\ lectureText (dispatch w SpeechEnd later) = lectureText later) as End.
    { intros later. destruct (speech_end_run w later) as (_ & Hint & Htxt & _).
      split; assumption. }
    destruct (recognitionRef s) as [r|] eqn:Ref.
    + rewrite (I2 Rec r eq_refl). cbn.
      split; [reflexivity|]. split; [reflexivity|]. split; [reflexivity|].
      split; [discriminate|].
      split; [|exact End]. intros _.
      split; [reflexivity|]. split; [exists Stopping; split; reflexivity|].
      apply (End (set_isRecording false (set_recognitionRef (Some Stopping) s))).
    + cbn. rewrite Ref.
      split; [reflexivity|]. split; [reflexivity|]. split; [reflexivity|].
      split; [intros _; split; [reflexivity | apply I1; reflexivity]|].
      split; [intros F; contradiction | exact End].
Qed.

Lemma capturing_reachable : reachable page_without_config capturing.
Proof.
  unfold capturing.
  apply reach_event; [apply reach_event; [apply reach_mount | reflexivity]|].
  exists Listening. split; reflexivity.
Qed.

Lemma toggle_recording_buffers_witness :
  isRecording capturing = true
  /\ lectureText capturing = "Neurons transmit "
  /\ interimTranscript capturing = "sig"
  /\ lectureText (dispatch page_without_config ClickRecord capturing)
     = "Neurons transmit "
  /\ recognitionRef (dispatch page_without_config ClickRecord capturing)
     = Some Stopping
  /\ interimTranscript
       (dispatch page_without_config SpeechEnd
          (dispatch page_without_config ClickRecord capturing)) = ""
  /\ lectureText
       (dispatch page_without_config SpeechEnd
          (dispatch page_without_config ClickRecord capturing))
     = "Neurons transmit ".
Proof.
  destruct (toggle_recording_buffers page_without_config capturing
              capturing_reachable) as [_ Stop].
  destruct (Stop eq_refl) as (_ & Htxt & _ & _ & Hend & _).
  destruct Hend as (Href & _ & Hint & Hkeep); [discriminate|].
  repeat split; assumption.
Defined.

(** While recording with an interim text on display, the click on the
    record button lowers the flag and leaves the interim text where it
    is. *)
Lemma stop_click_keeps_interim :
  reachable page_without_config capturing
  /\ isRecording capturing = true
  /\ interimTranscript capturing = "sig"
  /\ isRecording (dispatch page_without_config ClickRecord capturing) = false
  /\ interimTranscript (dispatch page_without_config ClickRecord capturing) = "sig"
  /\ interimTranscript (dispatch page_without_config ClickRecord capturing) <> "".
Proof.
  split; [exact capturing_reachable|].
  repeat split. discriminate.
Qed.

(* ================================================================= *)
(** ** Recognition results *)

Lemma append_assoc (a b c : string) : (a +++ b) +++ c = a +++ (b +++ c).
Proof. induction a as [|x a IH]; simpl; [reflexivity | f_equal; exact IH]. Qed.

Lemma append_empty_r (a : string) : a +++ "" = a.
Proof. induction a as [|x a IH]; simpl; [reflexivity | f_equal; exact IH]. Qed.

Lemma segments_cons (final : bool) (r : SpeechRecognitionResult)
    (rs : list SpeechRecognitionResult) :
  segments final (r :: rs)
  = if Bool.eqb (isFinal r) final
    then transcript r +++ segments final rs
    else segments final rs.
Proof. unfold segments. simpl. destruct (Bool.eqb (isFinal r) final); reflexivity. Qed.

Lemma segments_app (final : bool) (rs1 rs2 : list SpeechRecognitionResult) :
  segments final (rs1 ++ rs2) = segments final rs1 +++ segments final rs2.
Proof.
  induction rs1 as [|r rs1 IH]; [reflexivity|].
  rewrite <- app_comm_cons, !segments_cons, IH.
  destruct (Bool.eqb (isFinal r) final); [symmetry; apply append_assoc | reflexivity].
Qed.

(** The loop of [onresult] sorts the transcripts into the two
    accumulators, each in the order of the results. *)
Lemma collect_segments (rs : list SpeechRecognitionResult) (f i : string) :
  collect rs f i = (f +++ segments true rs, i +++ segments false rs).
Proof.
  revert f i. induction rs as [|r rs IH]; intros f i.
  - simpl. unfold segments. simpl. rewrite !append_empty_r. reflexivity.
  - simpl. rewrite !segments_cons. destruct (isFinal r); simpl; rewrite IH.
    + rewrite append_assoc. reflexivity.
    + rewrite append_assoc. reflexivity.
Qed.

Lemma onresult_run (event : SpeechRecognitionEvent) (s : State) :
  let heard := skipn (resultIndex event) (results event) in
  onresult event s
  = mkRun (Normal tt)
      (set_interimTranscript (segments false heard)
         (set_lectureText (lectureText s +++ segments true heard) s))
      [].
Proof.
  cbn zeta. unfold onresult. rewrite collect_segments. reflexivity.
Qed.

(** X1.  A recognition event appends to the transcript the transcripts of
    its final results from [resultIndex] on, in their order, and replaces
    the interim text by those of its other results from [resultIndex] on;
    the transcript it finds is kept as a prefix, and nothing else in the
    state changes. *)
Theorem onresult_appends_finals (event : SpeechRecognitionEvent) (s : State) :
  let heard := skipn (resultIndex event) (results event) in
  let s' := after (onresult event s) in
  lectureText s' = lectureText s +++ segments true heard
  /\ interimTranscript s' = segments false heard
  /\ prefix (lectureText s) (lectureText s') = true
  /\ s' = set_interimTranscript (interimTranscript s')
            (set_lectureText (lectureText s') s).
Proof.
  cbn zeta. rewrite onresult_run. cbn.
  repeat split.
  apply prefix_correct.
  generalize (segments true (skipn (resultIndex event) (results event))) as t.
  induction (lectureText s) as [|x a IH]; intros t; simpl.
  - destruct t; reflexivity.
  - f_equal. apply IH.
Qed.

(** X2.  An event whose [resultIndex] is not below the number of its
    results leaves the transcript as it is and empties the interim
    text. *)
Theorem onresult_past_the_results (event : SpeechRecognitionEvent) (s : State) :
  List.length (results event) <= resultIndex event ->
  lectureText (after (onresult event s)) = lectureText s
  /\ interimTranscript (after (onresult event s)) = "".
Proof.
  intros H. rewrite onresult_run. cbn.
  rewrite (skipn_all2 _ H). unfold segments. simpl.
  rewrite append_empty_r. split; reflexivity.
Qed.

Lemma onresult_past_the_results_witness :
  lectureText (after (onresult (mkEvent 2 (results heard)) capturing))
  = lectureText capturing
  /\ interimTranscript capturing = "sig"
  /\ interimTranscript (after (onresult (mkEvent 2 (results heard)) capturing)) = "".
Proof.
  destruct (onresult_past_the_results (mkEvent 2 (results heard)) capturing
              (le_n 2)) as [Ht Hi].
  split; [exact Ht|]. split; [reflexivity | exact Hi].
Defined.

(** X3.  Two recognition events in a row: the transcript has grown by
    the final segments of the first and then of the second, and the
    interim text is that of the second alone (interim text does not
    accumulate). *)
Theorem onresult_twice (e1 e2 : SpeechRecognitionEvent) (s : State) :
  let h1 := skipn (resultIndex e1) (results e1) in
  let h2 := skipn (resultIndex e2) (results e2) in
  let s2 := after (onresult e2 (after (onresult e1 s))) in
  lectureText s2 = lectureText s +++ segments true (h1 ++ h2)
  /\ interimTranscript s2 = segments false h2.
Proof.
  cbn zeta. rewrite !onresult_run. cbn.
  rewrite segments_app, append_assoc. split; reflexivity.
Qed.

(* ================================================================= *)
(** ** The setup, in full *)

Section Setup.

Variable w : Window.
Variable c : Collaborators.
Variable s : State.

Lemma setupMockMode_run (s0 : State) :
  setupMockMode s0
  = mkRun (Normal tt)
      (set_selectedLecture (firstOrNull MOCK_LECTURES)
         (set_lectures MOCK_LECTURES
            (set_userId (Some "MOCK_USER_ID") (set_mockMode true s0))))
      [].
Proof. reflexivity. Qed.

(** X4.  With a configuration, a sign-in that yields the user [uid] and a
    listener that registers, the setup sends exactly the sign-in (with the
    page's token when it has one, anonymous otherwise) and the
    subscription to [/artifacts/<appId>/users/<uid>/lectures]; it records
    the user, leaves mock mode off and touches nothing else: the list
    stays as it was until a snapshot arrives. *)
Theorem setup_subscribes (uid : string) :
  configMissing w = false ->
  signIn c (signInToken w) = Normal (Some uid) ->
  onSnapshot c (lecturesPath w uid) = Normal tt ->
  let r := setupFirebase w c s in
  outcome r = Normal tt
  /\ calls r = [SignIn (signInToken w); OnSnapshot (lecturesPath w uid)]
  /\ after r = set_mockMode false (set_userId (Some uid) s)
  /\ lecturesPath w uid
     = "/artifacts/" +++ or_else (__app_id w) "MOCK_APP_ID" +++ "/users/" +++ uid
       +++ "/lectures".
Proof.
  intros Hc Hs Ho. cbn zeta. unfold setupFirebase. rewrite Hc.
  unfold try_catch, bind, await, setUserId, setMockMode, upd.
  cbn -[lecturesPath]. fold (signInToken w). rewrite Hs. cbn -[lecturesPath].
  rewrite Ho. cbn -[lecturesPath]. repeat split.
Qed.

(** X5.  The setup never throws and always ends with a user identifier.
    Either it subscribed as the signed-in user, or it ended as
    [setupMockMode] does from the same state: that is the case when the
    configuration is missing, when the sign-in throws or yields no user,
    and also when the listener cannot be registered after a successful
    sign-in, whose user is then replaced by the mock user. *)
Theorem setup_falls_back :
  let r := setupFirebase w c s in
  outcome r = Normal tt
  /\ identified (after r)
  /\ ((exists uid,
         configMissing w = false
         /\ signIn c (signInToken w) = Normal (Some uid)
         /\ onSnapshot c (lecturesPath w uid) = Normal tt
         /\ after r = set_mockMode false (set_userId (Some uid) s))
      \/ after r = after (setupMockMode s))
  /\ (configMissing w = true
      \/ (exists e, signIn c (signInToken w) = Throw e)
      \/ signIn c (signInToken w) = Normal None
      \/ (exists uid e, signIn c (signInToken w) = Normal (Some uid)
                        /\ onSnapshot c (lecturesPath w uid) = Throw e) ->
      after r = after (setupMockMode s)).
Proof.
  cbn zeta. unfold setupFirebase.
  destruct (configMissing w) eqn:Hc.
  - rewrite setupMockMode_run. cbn. unfold identified. cbn.
    repeat split; auto. discriminate.
  - unfold try_catch, bind, await, setUserId, setMockMode, upd.
    cbn -[lecturesPath]. fold (signInToken w).
    destruct (signIn c (signInToken w)) as [[uid|]|e] eqn:Hs; cbn -[lecturesPath].
    + destruct (onSnapshot c (lecturesPath w uid)) as [[]|e] eqn:Ho;
        cbn -[lecturesPath]; unfold identified; cbn -[lecturesPath].
      * split; [reflexivity|]. split; [discriminate|]. split.
        -- left. exists uid. repeat split; assumption.
        -- intros [F|[[e F]|[F|(uid' & e & [= <-] & F)]]]; try discriminate.
           rewrite Ho in F. discriminate.
      * repeat split; auto. discriminate.
    + unfold identified. cbn. repeat split; auto. discriminate.
    + unfold identified. cbn. repeat split; auto. discriminate.
Qed.

End Setup.

Lemma setup_falls_back_witness :
  let c0 :=
    {| Date_now := 0;
       signIn := fun _ => Normal (Some "uid-1");
       onSnapshot := fun _ => Throw (mkError (Some "unavailable"));
       GoogleGenAI := Normal tt;
       generateContent := fun _ => Normal None;
       JSON_parse := no_parse;
       add := fun _ _ => Normal tt |} in
  let r := setupFirebase page_with_config c0 (initialState page_with_config) in
  calls r = [SignIn None; OnSnapshot "/artifacts/studymate/users/uid-1/lectures"]
  /\ userId (after r) = Some "MOCK_USER_ID"
  /\ mockMode (after r) = true
  /\ lectures (after r) = MOCK_LECTURES.
Proof.
  cbn zeta.
  match goal with
  | |- context [setupFirebase ?w0 ?c0 ?s0] =>
      destruct (setup_falls_back w0 c0 s0) as (_ & _ & _ & F)
  end.
  rewrite F.
  - repeat split.
  - right. right. right.
    exists "uid-1", (mkError (Some "unavailable")). split; reflexivity.
Defined.

Lemma setup_subscribes_witness :
  let r := setupFirebase page_with_config rejecting (initialState page_with_config) in
  calls r = [SignIn None; OnSnapshot "/artifacts/studymate/users/uid-1/lectures"]
  /\ userId (after r) = Some "uid-1"
  /\ mockMode (after r) = false
  /\ lectures (after r) = [].
Proof.
  destruct (setup_subscribes page_with_config rejecting
              (initialState page_with_config) "uid-1" eq_refl eq_refl eq_refl)
    as (_ & Hc & Ha & _).
  cbn zeta. rewrite Hc, Ha. repeat split.
Defined.

(* ================================================================= *)
(** ** Runs of [handleGenerate], in full *)

(** The first characters of a string: a prefix, as long as asked when the
    string is long enough. *)
Lemma substring_head (n : nat) (s : string) :
  prefix (substring 0 n s) s = true
  /\ String.length (substring 0 n s) = Nat.min n (String.length s).
Proof.
  revert s. induction n as [|n IH]; intros s.
  - destruct s; split; reflexivity.
  - destruct s as [|x s]; [split; reflexivity|].
    destruct (IH s) as [P L]. simpl. split.
    + destruct (ascii_dec x x) as [_|F]; [exact P | contradiction].
    + f_equal. exact L.
Qed.

Lemma substring_short (n : nat) (s : string) :
  String.length s <= n -> substring 0 n s = s.
Proof.
  revert s. induction n as [|n IH]; intros s H.
  - destruct s; [reflexivity | simpl in H; lia].
  - destruct s as [|x s]; [reflexivity|]. simpl. f_equal. apply IH. simpl in H. lia.
Qed.

Section Runs.

Variable w : Window.
Variable c : Collaborators.

(** The requests a run can have sent. *)
Lemma handleGenerate_try_calls (text : string) (uid : option string) (mock : bool)
    (s : State) :
  let r := handleGenerate_try w c text uid mock s in
  calls r = []
  \/ calls r = [GenerateContent (generateParams text)]
  \/ (mock = false
      /\ exists d,
           outcome (generate c text s) = Normal d
           /\ calls r = [GenerateContent (generateParams text);
                         CollectionAdd (lecturesPath w (show_userId uid))
                           (newLecture_store d)]).
Proof.
  cbn zeta. rewrite handleGenerate_try_run.
  destruct (outcome (generate c text s)) as [d|e] eqn:G.
  - rewrite (generate_sent c text s d G). destruct mock.
    + right. left. reflexivity.
    + right. right. split; [reflexivity|]. exists d. split; reflexivity.
  - destruct (generate_run c text s) as [_ [C|C]]; rewrite C; auto.
Qed.

(** X6.  A run of [handleGenerate] never throws.  It sends nothing, or the
    one generation request, or that request followed by one write to the
    store; the write happens only outside mock mode and goes to the
    lectures collection of the current user.  A refused run leaves the
    loading flag as it is, every other run leaves it down. *)
Theorem handleGenerate_requests (s : State) :
  let r := handleGenerate w c s in
  let request := GenerateContent (generateParams (lectureText s)) in
  outcome r = Normal tt
  /\ (calls r = []
      \/ calls r = [request]
      \/ (mockMode s = false
          /\ exists doc,
               calls r = [request;
                          CollectionAdd (lecturesPath w (show_userId (userId s)))
                            doc]))
  /\ isLoading (after r)
     = (if generateRefused (lectureText s) (userId s) then isLoading s else false).
Proof.
  cbn zeta.
  destruct (generateRefused (lectureText s) (userId s)) eqn:H.
  - rewrite (handleGenerate_refused w c s H). cbn. auto.
  - assert (calls (attempt w c s) = []
            \/ calls (attempt w c s) = [GenerateContent (generateParams (lectureText s))]
            \/ (mockMode s = false
                /\ exists doc,
                     calls (attempt w c s)
                     = [GenerateContent (generateParams (lectureText s));
                        CollectionAdd (lecturesPath w (show_userId (userId s))) doc]))
      as C.
    { destruct (handleGenerate_try_calls (lectureText s) (userId s) (mockMode s)
                  (generating s)) as [C|[C|(M & d & _ & C)]]; auto.
      right. right. split; [exact M|]. exists (newLecture_store d). exact C. }
    destruct (outcome (attempt w c s)) as [[]|e] eqn:T.
    + rewrite (handleGenerate_succeeded w c s H T). cbn. auto.
    + rewrite (handleGenerate_failed w c s H e T). cbn. auto.
Qed.

(** X7.  A successful run (accepted, no error afterwards) ends with the
    loading flag down and the notes tab active, and it keeps the
    transcript: the text is not cleared after a success either.  The
    request it sent carries the transcript as it is, untrimmed, as its
    contents. *)
Theorem successful_generation_state (s : State) :
  generateRefused (lectureText s) (userId s) = false ->
  error (after (handleGenerate w c s)) = None ->
  let r := handleGenerate w c s in
  isLoading (after r) = false
  /\ activeTab (after r) = Tab.notes
  /\ lectureText (after r) = lectureText s
  /\ exists request,
       hd_error (calls r) = Some (GenerateContent request)
       /\ contents request = lectureText s
       /\ model request = "gemini-2.5-flash"
       /\ responseMimeType request = "application/json".
Proof.
  intros H E. cbn zeta.
  pose proof (handleGenerate_ok w c s H E) as T.
  destruct (handleGenerate_record w c s H E) as (d & G & R).
  rewrite (handleGenerate_succeeded w c s H T) in *. cbn in *.
  destruct (handleGenerate_try_frame w c (lectureText s) (userId s) (mockMode s)
              (generating s)) as (Ht & _ & Ha & _).
  split; [reflexivity|]. split; [exact Ha|]. split; [exact Ht|].
  exists (generateParams (lectureText s)).
  destruct (mockMode s); [destruct R as (_ & _ & C) | destruct R as (_ & C)];
    rewrite C; repeat split.
Qed.

(** X8.  The record a successful run creates (the new first record in
    mock mode, the document written to the store otherwise) keeps the
    whole transcript, untrimmed, as its original text; its title is the
    first forty characters of the transcript (all of it when it is
    shorter) followed by three dots, which are appended to a short
    transcript as well. *)
Theorem created_record_provenance (s : State) :
  generateRefused (lectureText s) (userId s) = false ->
  error (after (handleGenerate w c s)) = None ->
  let r := handleGenerate w c s in
  let fromTranscript (recordTitle recordText : string) :=
    recordText = lectureText s
    /\ exists head,
         recordTitle = head +++ "..."
         /\ prefix head (lectureText s) = true
         /\ String.length head = Nat.min 40 (String.length (lectureText s))
         /\ (String.length (lectureText s) <= 40 -> head = lectureText s) in
  if mockMode s then
    exists created,
      hd_error (lectures (after r)) = Some created
      /\ fromTranscript (title created) (originalText created)
  else
    exists path doc,
      calls r = [GenerateContent (generateParams (lectureText s));
                 CollectionAdd path doc]
      /\ fromTranscript (nl_title doc) (nl_originalText doc).
Proof.
  intros H E. cbn zeta.
  destruct (handleGenerate_record w c s H E) as (d & G & R).
  apply generate_normal in G.
  destruct G as (answer & result & sm & fc & _ & _ & _ & _ & _ & ->).
  assert (exists head,
            substring 0 40 (lectureText s) +++ "..." = head +++ "..."
            /\ prefix head (lectureText s) = true
            /\ String.length head = Nat.min 40 (String.length (lectureText s))
            /\ (String.length (lectureText s) <= 40 -> head = lectureText s)) as T.
  { exists (substring 0 40 (lectureText s)).
    destruct (substring_head 40 (lectureText s)) as [P L].
    repeat split; try assumption. apply substring_short. }
  destruct (mockMode s).
  - destruct R as (L & _ & _). eexists. rewrite L. cbn.
    split; [reflexivity|]. split; [reflexivity | exact T].
  - destruct R as (_ & C). do 2 eexists. split; [exact C|]. cbn.
    split; [reflexivity | exact T].
Qed.

End Runs.

Lemma successful_generation_state_witness :
  let r := handleGenerate page_with_config neuron_service signed_in in
  activeTab signed_in = Tab.input
  /\ isLoading (after r) = false
  /\ activeTab (after r) = Tab.notes
  /\ lectureText (after r) = neuron_transcript.
Proof.
  destruct (successful_generation_state page_with_config neuron_service signed_in
              eq_refl eq_refl) as (Hl & Ha & Ht & _).
  cbn zeta. split; [reflexivity|]. repeat split; assumption.
Defined.

Lemma created_record_provenance_witness :
  let long := "The hippocampus consolidates short-term memories into long-term ones." in
  exists created,
    hd_error (lectures (after (handleGenerate page_without_config neuron_service
                                 (fallback_session long)))) = Some created
    /\ originalText created = long
    /\ title created = "The hippocampus consolidates short-term ...".
Proof.
  cbn zeta.
  pose proof (created_record_provenance page_without_config neuron_service
                (fallback_session
                   "The hippocampus consolidates short-term memories into long-term ones.")
                eq_refl eq_refl) as P.
  cbn zeta in P.
  change (mockMode (fallback_session
            "The hippocampus consolidates short-term memories into long-term ones."))
    with true in P.
  cbv iota in P.
  destruct P as (created & Hh & Ho & _).
  exists created. split; [exact Hh|]. split; [exact Ho|].
  cbn in Hh. injection Hh as <-. reflexivity.
Defined.

(* ================================================================= *)
(** ** Failures, by cause *)

Section Failures.

Variable w : Window.
Variable c : Collaborators.
Variable s : State.
Hypothesis accepted : generateRefused (lectureText s) (userId s) = false.

Lemma early_failure (e : Error) :
  outcome (generate c (lectureText s) (generating s)) = Throw e ->
  error (after (handleGenerate w c s)) = Some (failureMessage e)
  /\ calls (handleGenerate w c s) = calls (generate c (lectureText s) (generating s))
  /\ lectures (after (handleGenerate w c s)) = lectures s
  /\ selectedLecture (after (handleGenerate w c s)) = selectedLecture s.
Proof.
  intros G.
  assert (outcome (attempt w c s) = Throw e) as T
    by (apply handleGenerate_try_throws; left; exact G).
  rewrite (handleGenerate_failed w c s accepted e T). unfold attempt. cbn.
  rewrite handleGenerate_try_run, G. cbn. auto.
Qed.

(** X9.  The failures before any answer is read.  When the client cannot
    be constructed, nothing is sent at all; when the service rejects the
    request or answers without a text, the one request was sent.  Each
    time the message shown is "An error occurred during generation: "
    followed by the thrown message, or by "Unknown error" when the thrown
    value has no message or an empty one; the list and the selection stay
    as they were. *)
Theorem failures_before_the_answer :
  let r := handleGenerate w c s in
  let request := GenerateContent (generateParams (lectureText s)) in
  let shows (e : Error) (sent : list Call) :=
    error (after r) = Some (failureMessage e)
    /\ calls r = sent
    /\ lectures (after r) = lectures s
    /\ selectedLecture (after r) = selectedLecture s in
  (forall e, GoogleGenAI c = Throw e -> shows e [])
  /\ (forall e, GoogleGenAI c = Normal tt ->
        generateContent c (generateParams (lectureText s)) = Throw e ->
        shows e [request])
  /\ (GoogleGenAI c = Normal tt ->
        generateContent c (generateParams (lectureText s)) = Normal None ->
        shows (TypeError "Cannot read properties of undefined (reading 'trim')")
          [request])
  /\ (forall e, message e = None \/ message e = Some "" ->
        failureMessage e = "An error occurred during generation: Unknown error").
Proof.
  cbn zeta.
  assert (forall e sent,
            outcome (generate c (lectureText s) (generating s)) = Throw e ->
            calls (generate c (lectureText s) (generating s)) = sent ->
            error (after (handleGenerate w c s)) = Some (failureMessage e)
            /\ calls (handleGenerate w c s) = sent
            /\ lectures (after (handleGenerate w c s)) = lectures s
            /\ selectedLecture (after (handleGenerate w c s)) = selectedLecture s)
    as F.
  { intros e sent G C. destruct (early_failure e G) as (He & Hc & Hl & Hs).
    rewrite Hc, C. auto. }
  split; [|split; [|split]].
  - intros e G. apply F; unfold generate, bind, eval; cbn; rewrite G; reflexivity.
  - intros e K G.
    apply F; unfold generate, bind, eval, await; cbn; rewrite K; cbn; rewrite G;
      reflexivity.
  - intros K G.
    apply F; unfold generate, bind, eval, await; cbn; rewrite K; cbn; rewrite G;
      reflexivity.
  - intros [m] [H|H]; cbn in H; rewrite H; reflexivity.
Qed.

(** X10.  A store that rejects the write of a generated record turns a
    successful generation into a failure: both requests were sent, the
    store's message is shown, the input tab is active again, and the
    generated summary and flashcards are in no record. *)
Theorem store_failure_loses_the_record (d : LectureData) (e : Error) :
  mockMode s = false ->
  outcome (generate c (lectureText s) (generating s)) = Normal d ->
  add c (lecturesPath w (show_userId (userId s))) (newLecture_store d) = Throw e ->
  let r := handleGenerate w c s in
  calls r = [GenerateContent (generateParams (lectureText s));
             CollectionAdd (lecturesPath w (show_userId (userId s)))
               (newLecture_store d)]
  /\ error (after r) = Some (failureMessage e)
  /\ activeTab (after r) = Tab.input
  /\ lectures (after r) = lectures s
  /\ selectedLecture (after r) = selectedLecture s.
Proof.
  intros M G A. cbn zeta.
  assert (outcome (attempt w c s) = Throw e) as T.
  { apply handleGenerate_try_throws. right. exists d. auto. }
  rewrite (handleGenerate_failed w c s accepted e T). unfold attempt. cbn.
  rewrite handleGenerate_try_run, G, M, A. cbn.
  rewrite (generate_sent c (lectureText s) (generating s) d G). auto.
Qed.

End Failures.

Lemma failures_before_the_answer_witness :
  error (after (handleGenerate page_without_config silent_failure
                  (fallback_session neuron_transcript)))
  = Some "An error occurred during generation: Unknown error"
  /\ calls (handleGenerate page_without_config silent_failure
              (fallback_session neuron_transcript))
     = [GenerateContent (generateParams neuron_transcript)].
Proof.
  destruct (failures_before_the_answer page_without_config silent_failure
              (fallback_session neuron_transcript) eq_refl) as (_ & R & _ & _).
  destruct (R (mkError None) eq_refl eq_refl) as (He & Hc & _).
  split; [exact He | exact Hc].
Defined.

Lemma store_failure_loses_the_record_witness :
  let r := handleGenerate page_with_config failing_store signed_in in
  error (after r) = Some "An error occurred during generation: permission-denied"
  /\ activeTab (after r) = Tab.input
  /\ lectures (after r) = []
  /\ List.length (calls r) = 2.
Proof.
  destruct (store_failure_loses_the_record page_with_config failing_store signed_in
              eq_refl
              (lectureData neuron_transcript (Str "...")
                 (Array [Flashcard "Neuron" "..."]))
              (mkError (Some "permission-denied")) eq_refl eq_refl eq_refl)
    as (Hc & He & Ha & Hl & _).
  cbn zeta. rewrite Hc. repeat split; assumption.
Defined.

(* ================================================================= *)
(** ** Remote mode: the list belongs to the snapshots *)

Lemma map_id_lectureOfDoc (docs : list Doc) :
  map id (map lectureOfDoc docs) = map doc_id docs.
Proof. rewrite map_map. reflexivity. Qed.

Lemma remote_run_leaves_the_list_aux (w : Window) (c : Collaborators) (s : State) :
  mockMode s = false ->
  lectures (after (handleGenerate w c s)) = lectures s
  /\ selectedLecture (after (handleGenerate w c s)) = selectedLecture s.
Proof.
  intros M.
  destruct (generateRefused (lectureText s) (userId s)) eqn:H.
  - rewrite (handleGenerate_refused w c s H). split; reflexivity.
  - destruct (outcome (attempt w c s)) as [[]|e] eqn:T.
    + rewrite (handleGenerate_succeeded w c s H T). unfold attempt. cbn.
      rewrite handleGenerate_try_run, M.
      destruct (outcome (generate _ _ _)); split; reflexivity.
    + rewrite (handleGenerate_failed w c s H e T). unfold attempt. cbn.
      rewrite handleGenerate_try_run, M.
      destruct (outcome (generate _ _ _)); split; reflexivity.
Qed.

(** X11.  Outside mock mode a run of [handleGenerate] never writes the
    list of records or the selection, whatever its outcome; and an answer
    that arrives for a request made outside mock mode leaves them alone in
    whatever state it finds, also one that has fallen back to mock mode in
    the meantime, whose list does not get the record. *)
Theorem remote_run_leaves_the_list (w : Window) (c : Collaborators) (s : State) :
  (mockMode s = false ->
     lectures (after (handleGenerate w c s)) = lectures s
     /\ selectedLecture (after (handleGenerate w c s)) = selectedLecture s)
  /\ (forall text uid later,
        let settled := after (handleGenerate_settle w c text uid false later) in
        lectures settled = lectures later
        /\ selectedLecture settled = selectedLecture later).
Proof.
  split.
  - apply remote_run_leaves_the_list_aux.
  - intros text uid later settled. subst settled.
    unfold handleGenerate_settle, finally, try_catch, bind, setIsLoading, setError,
      setActiveTab, upd.
    rewrite handleGenerate_try_run.
    destruct (outcome (generate c text later)) as [d|e]; cbn.
    + destruct (add c _ _); split; reflexivity.
    + split; reflexivity.
Qed.

Lemma remote_run_leaves_the_list_witness :
  mockMode signed_in = false
  /\ error (after (handleGenerate page_with_config neuron_service signed_in)) = None
  /\ lectures (after (handleGenerate page_with_config neuron_service signed_in)) = [].
Proof.
  destruct (remote_run_leaves_the_list page_with_config neuron_service signed_in)
    as [R _].
  destruct (R eq_refl) as [Hl _].
  split; [reflexivity|]. split; [reflexivity | exact Hl].
Defined.

(** X12.  Outside mock mode, when a record is selected and a generation
    succeeds, the snapshot that then arrives keeps the old selection as
    long as its id is among the documents: the new record is not selected,
    and the notes tab, made active by the generation, renders the old
    record: it shows the old summary when that value can be rendered, and
    throws when it holds a plain object.  With nothing selected before,
    the first document of the snapshot gets selected. *)
Theorem remote_generation_keeps_selection (w : Window) (c : Collaborators)
    (s : State) (docs : list Doc) :
  mockMode s = false ->
  generateRefused (lectureText s) (userId s) = false ->
  error (after (handleGenerate w c s)) = None ->
  let s' := after (snapshotListener docs (after (handleGenerate w c s))) in
  activeTab s' = Tab.notes
  /\ lectures s' = map lectureOfDoc docs
  /\ (forall cur, selectedLecture s = Some cur -> In (id cur) (map doc_id docs) ->
        selectedLecture s' = Some cur
        /\ notesTab s' = summaryView cur
        /\ (renderable (summary cur) = true ->
              notesTab s' = Normal (SummaryOf (summary cur)))
        /\ (renderable (summary cur) = false ->
              exists e, notesTab s' = Throw e))
  /\ (selectedLecture s = None ->
        selectedLecture s' = hd_error (map lectureOfDoc docs)).
Proof.
  intros M H E. cbn zeta.
  destruct (remote_run_leaves_the_list_aux w c s M) as [_ Hs].
  pose proof (handleGenerate_ok w c s H E) as T.
  assert (activeTab (after (handleGenerate w c s)) = Tab.notes
          /\ isLoading (after (handleGenerate w c s)) = false) as [Ha Hl].
  { rewrite (handleGenerate_succeeded w c s H T). cbn. split; [|reflexivity].
    apply (handleGenerate_try_frame w c (lectureText s) (userId s) (mockMode s)
             (generating s)). }
  rewrite snapshotListener_run. cbn. rewrite Hs.
  split; [exact Ha|]. split; [reflexivity|]. split.
  - intros cur Hc Hin. rewrite Hc.
    rewrite reselect_present by (rewrite map_id_lectureOfDoc; exact Hin).
    split; [reflexivity|]. unfold notesTab. cbn. rewrite Hl. cbn.
    split; [reflexivity|]. unfold summaryView.
    split; intros Rd; rewrite Rd; [reflexivity | eexists; reflexivity].
  - intros Hn. rewrite Hn. apply firstOrNull_head.
Qed.

Lemma remote_generation_keeps_selection_witness :
  let s' :=
    after (snapshotListener [stored "n" "newest"; stored "b" "older"]
             (after (handleGenerate page_with_config neuron_service reading_b))) in
  selectedLecture reading_b = Some (lectureOfDoc (stored "b" "older"))
  /\ List.length (lectures s') = 2
  /\ selectedLecture s' = Some (lectureOfDoc (stored "b" "older"))
  /\ activeTab s' = Tab.notes
  /\ notesTab s' = Normal (SummaryOf (Str "s")).
Proof.
  destruct (remote_generation_keeps_selection page_with_config neuron_service
              reading_b [stored "n" "newest"; stored "b" "older"]
              eq_refl eq_refl eq_refl) as (Ha & Hl & Keep & _).
  destruct (Keep (lectureOfDoc (stored "b" "older")) eq_refl)
    as (Hs & _ & Hn & _).
  { cbn. auto. }
  cbn zeta. rewrite Hl.
  split; [reflexivity|]. split; [reflexivity|]. split; [exact Hs|].
  split; [exact Ha|]. apply Hn. reflexivity.
Defined.

(* ================================================================= *)
(** ** Invariants of the reachable states *)

(** The setup ends in one of two ways. *)
Lemma setupFirebase_cases (w : Window) (c : Collaborators) (s : State) :
  (exists uid, after (setupFirebase w c s) = set_mockMode false (set_userId (Some uid) s))
  \/ after (setupFirebase w c s) = after (setupMockMode s).
Proof.
  unfold setupFirebase. destruct (configMissing w); [right; reflexivity|].
  unfold try_catch, bind, await, setUserId, setMockMode, upd. cbn -[lecturesPath].
  destruct (signIn c _) as [[uid|]|e]; cbn -[lecturesPath]; try (right; reflexivity).
  destruct (onSnapshot c _) as [[]|e]; cbn -[lecturesPath];
    [left; exists uid; reflexivity | right; reflexivity].
Qed.

(** The second stretch of a generation, by cases: the record is prepended
    and selected (answer read, request made in mock mode), or the list and
    the selection stay. *)
Lemma handleGenerate_settle_cases (w : Window) (c : Collaborators) (text : string)
    (uid : option string) (mock : bool) (s : State) :
  let s' := after (handleGenerate_settle w c text uid mock s) in
  mockMode s' = mockMode s
  /\ userId s' = userId s
  /\ ((lectures s' = lectures s /\ selectedLecture s' = selectedLecture s)
      \/ (mock = true
          /\ exists d,
               outcome (generate c text s) = Normal d
               /\ lectures s' = newLecture_mock (Date_now c) d :: lectures s
               /\ selectedLecture s' = Some (newLecture_mock (Date_now c) d))).
Proof.
  cbn zeta.
  unfold handleGenerate_settle, finally, try_catch, bind, setIsLoading, setError,
    setActiveTab, upd.
  rewrite handleGenerate_try_run.
  destruct (outcome (generate c text s)) as [d|e] eqn:G; [destruct mock|]; cbn.
  - split; [reflexivity|]. split; [reflexivity|]. right.
    split; [reflexivity|]. exists d. auto.
  - destruct (add c _ _); cbn; auto.
  - auto.
Qed.

(** The events that leave the mode, the user, the list and the selection
    alone. *)
Lemma quiet_events (w : Window) (ev : Event) (s : State) :
  match ev with
  | ClickTab _ | ChangeText _ | ClickRecord | ClickGenerate
  | SpeechResult _ | SpeechEnd => records_frame s (dispatch w ev s)
  | _ => True
  end.
Proof.
  destruct ev; try exact I; unfold dispatch, handler.
  - repeat split.
  - repeat split.
  - destruct (isRecording s) eqn:R.
    + rewrite (toggle_stop s R).
      destruct (recognitionRef s) as [[]|]; repeat split.
    + rewrite (toggle_start s R).
      destruct (recognitionRef s) as [[]|]; repeat split.
  - unfold handleGenerate_begin, withProps.
    destruct (generateRefused _ _); repeat split.
  - rewrite onresult_run. repeat split.
  - unfold recognition_ended, onend, bind, setIsRecording, setInterimTranscript,
      upd, ret.
    destruct (recognitionRef s); repeat split.
Qed.

Lemma reselect_sound (l : list Lecture) (cur : option Lecture) :
  (forall x, reselect l cur = Some x -> In (id x) (map id l))
  /\ (reselect l cur = None -> l = []).
Proof.
  assert ((forall x, firstOrNull l = Some x -> In (id x) (map id l))
          /\ (firstOrNull l = None -> l = [])) as [F1 F2].
  { rewrite firstOrNull_head. destruct l as [|y l]; cbn; split;
      try discriminate; auto.
    intros x [= <-]. left. reflexivity. }
  unfold reselect. destruct cur as [c0|]; [|split; assumption].
  destruct (existsb _ l) eqn:E; [|split; assumption].
  split; [|discriminate]. intros x [= <-]. apply some_id_In. exact E.
Qed.

Lemma reachable_selection_inv (w : Window) (s : State) :
  reachable w s -> selection_inv s.
Proof.
  induction 1 as [|s ev Hreach IH Hen].
  - split; [discriminate | reflexivity].
  - pose proof (quiet_events w ev s) as Q.
    destruct ev as [c|docs| |tab|value| | |c text uid mock|lecture|event| ];
      try (destruct Q as (_ & _ & Hl & Hs); unfold selection_inv;
                      rewrite Hl, Hs; exact IH);
      unfold dispatch, handler.
    + destruct (setupFirebase_cases w c s) as [[uid E]|E]; rewrite E.
      * exact IH.
      * split; [intros cur [= <-]; left; reflexivity | discriminate].
    + rewrite snapshotListener_run. unfold selection_inv. cbn.
      apply reselect_sound.
    + split; [intros cur [= <-]; left; reflexivity | discriminate].
    + destruct (handleGenerate_settle_cases w c text uid mock s)
        as (_ & _ & [[Hl Hs]|(_ & d & _ & Hl & Hs)]);
        unfold selection_inv; rewrite Hl, Hs; [exact IH|].
      split; [intros cur [= <-]; left; reflexivity | discriminate].
    + destruct Hen as [_ Hin]. unfold handleSelectLecture, bind, setSelectedLecture,
        setActiveTab, upd. unfold selection_inv. cbn.
      split; [intros cur [= <-]; apply in_map; exact Hin | discriminate].
Qed.

Lemma reachable_mock_inv (w : Window) (s : State) :
  reachable w s -> mock_inv s.
Proof.
  assert (mock_inv (after (setupMockMode (initialState w)))
          /\ forall s0, mock_inv (after (setupMockMode s0))) as [_ Mock].
  { split; intros; intros _; cbn;
      (split; [reflexivity|]; split; [exists []; reflexivity|]);
      repeat constructor; exists (1000 * 60 * 5)%Z; reflexivity. }
  induction 1 as [|s ev Hreach IH Hen].
  - intros F. discriminate.
  - pose proof (quiet_events w ev s) as Q.
    destruct ev as [c|docs| |tab|value| | |c text uid mock|lecture|event| ];
      try (destruct Q as (Hm & Hu & Hl & _); unfold mock_inv;
                      rewrite Hm, Hu, Hl; exact IH);
      unfold dispatch, handler.
    + destruct (setupFirebase_cases w c s) as [[uid E]|E]; rewrite E.
      * intros F. discriminate.
      * apply Mock.
    + rewrite snapshotListener_run. destruct Hen as [Hm _].
      intros F. cbn in F. rewrite Hm in F. discriminate.
    + apply Mock.
    + destruct (handleGenerate_settle_cases w c text uid mock s)
        as (Hm & Hu & [[Hl _]|(_ & d & _ & Hl & _)]);
        unfold mock_inv; rewrite Hm, Hu, Hl; [exact IH|].
      intros M. destruct (IH M) as (U & [added A] & L).
      split; [exact U|]. split.
      * exists (newLecture_mock (Date_now c) d :: added). rewrite A. reflexivity.
      * constructor; [exists 0%Z; reflexivity | exact L].
    + unfold handleSelectLecture, bind, setSelectedLecture, setActiveTab, upd.
      exact IH.
Qed.

Lemma fallback_reachable (text : string) :
  reachable page_without_config (fallback_session text).
Proof.
  unfold fallback_session.
  apply reach_event; [apply reach_event; [apply reach_mount | reflexivity]|].
  reflexivity.
Qed.

(** X13.  In every reachable state the selection goes with the list: a
    selected record has its id among the ids of the list, and nothing is
    selected exactly when the list is empty. *)
Theorem selection_follows_the_list (w : Window) (s : State) :
  reachable w s ->
  (forall cur, selectedLecture s = Some cur -> In (id cur) (map id (lectures s)))
  /\ (selectedLecture s = None <-> lectures s = []).
Proof.
  intros R. destruct (reachable_selection_inv w s R) as [I1 I2].
  split; [exact I1|]. split; [exact I2|].
  intros E. destruct (selectedLecture s) as [cur|] eqn:S; [|reflexivity].
  specialize (I1 cur eq_refl). rewrite E in I1. destruct I1.
Qed.

Lemma selection_follows_the_list_witness :
  let s := dispatch page_without_config
             (GenerateSettled neuron_service neuron_transcript
                (Some "MOCK_USER_ID") true)
             (dispatch page_without_config ClickGenerate
                (fallback_session neuron_transcript)) in
  List.length (lectures s) = 2
  /\ exists cur, selectedLecture s = Some cur
                 /\ In (id cur) (map id (lectures s)).
Proof.
  cbn zeta.
  match goal with
  | |- context [selectedLecture ?s0] =>
      assert (reachable page_without_config s0) as R
  end.
  { apply reach_event; [apply reach_event; [apply fallback_reachable|]|].
    - split; reflexivity.
    - reflexivity. }
  destruct (selection_follows_the_list _ _ R) as [I _].
  split; [reflexivity|].
  eexists. split; [reflexivity|]. apply I. reflexivity.
Defined.

(** X14.  There is no way back from mock mode, nor to an unknown user.
    In every reachable state in mock mode the user is the mock user, the
    list ends with the built-in sample (records are only ever prepended to
    it) and every event that can occur leaves mock mode on; and whatever
    the state, an event never takes a known user identifier away. *)
Theorem mock_mode_is_permanent (w : Window) (s : State) :
  reachable w s ->
  (mockMode s = true ->
     userId s = Some "MOCK_USER_ID"
     /\ (exists added, lectures s = added ++ MOCK_LECTURES)
     /\ lectures s <> []
     /\ forall ev, enabled ev s -> mockMode (dispatch w ev s) = true)
  /\ (forall ev, userId s <> None -> enabled ev s -> userId (dispatch w ev s) <> None).
Proof.
  intros R. pose proof (reachable_mock_inv w s R) as MI. split.
  - intros M. destruct (MI M) as (U & [added A] & _).
    split; [exact U|]. split; [exists added; exact A|]. split.
    { rewrite A. destruct added; discriminate. }
    intros ev Hen. pose proof (quiet_events w ev s) as Q.
    destruct ev as [c|docs| |tab|value| | |c text uid mock|lecture|event| ];
      try (destruct Q as (Hm & _); rewrite Hm; exact M).
    + cbn in Hen. rewrite U in Hen. discriminate.
    + destruct Hen as [F _]. rewrite M in F. discriminate.
    + reflexivity.
    + unfold dispatch, handler.
      destruct (handleGenerate_settle_cases w c text uid mock s) as (Hm & _).
      rewrite Hm. exact M.
    + exact M.
  - intros ev U Hen. pose proof (quiet_events w ev s) as Q.
    destruct ev as [c|docs| |tab|value| | |c text uid mock|lecture|event| ];
      try (destruct Q as (_ & Hu & _); rewrite Hu; exact U).
    + unfold dispatch, handler.
      destruct (setupFirebase_cases w c s) as [[u E]|E]; rewrite E; discriminate.
    + exact U.
    + discriminate.
    + unfold dispatch, handler.
      destruct (handleGenerate_settle_cases w c text uid mock s) as (_ & Hu & _).
      rewrite Hu. exact U.
    + exact U.
Qed.

Lemma mock_mode_is_permanent_witness :
  mockMode (fallback_session neuron_transcript) = true
  /\ userId (fallback_session neuron_transcript) = Some "MOCK_USER_ID"
  /\ mockMode (dispatch page_without_config ClickGenerate
                 (fallback_session neuron_transcript)) = true.
Proof.
  destruct (mock_mode_is_permanent page_without_config
              (fallback_session neuron_transcript)
              (fallback_reachable neuron_transcript)) as [M _].
  destruct (M eq_refl) as (U & _ & _ & P).
  split; [reflexivity|]. split; [exact U|].
  apply P. split; reflexivity.
Defined.

(* ================================================================= *)
(** ** What mock mode shows *)

Lemma historyEntries_local (now : Z) (selected : option Lecture) (ls : list Lecture) :
  Forall localRecord ls ->
  exists entries,
    historyEntries now selected ls = Normal entries
    /\ List.length entries = List.length ls
    /\ Forall (fun e => entry_date e <> None) entries
    /\ (forall cur, selected = Some cur -> In (id cur) (map id ls) ->
          existsb entry_selected entries = true).
Proof.
  induction 1 as [|l ls [ago T] _ (entries & E & L & D & S)].
  - exists []. split; [reflexivity|]. split; [reflexivity|].
    split; [constructor|]. intros cur _ [].
  - cbn. unfold historyEntry. rewrite T. cbn. rewrite E.
    eexists. split; [reflexivity|]. split; [cbn; f_equal; exact L|]. split.
    + constructor; [cbn; discriminate | exact D].
    + intros cur -> [Hid|Hin]; cbn.
      * rewrite Hid, String.eqb_refl. reflexivity.
      * rewrite (S cur eq_refl Hin). apply orb_true_r.
Qed.

(** X15.  In every reachable state in mock mode a record is selected.
    The notes tab then renders that record: never the loading line, never
    "No lecture selected"; it shows the summary when that value can be
    rendered and throws when it holds a plain object.  The history tab
    renders without throwing, carries the local-mode notice, lists every
    record with a valid date and marks a selected one. *)
Theorem mock_mode_selects_a_record (w : Window) (s : State) (now : Z) :
  reachable w s ->
  mockMode s = true ->
  (exists cur,
     selectedLecture s = Some cur
     /\ notesTab s = summaryView cur
     /\ notesTab s <> Normal GeneratingSummary
     /\ notesTab s <> Normal NoLectureSelected
     /\ (renderable (summary cur) = true ->
           notesTab s = Normal (SummaryOf (summary cur)))
     /\ (renderable (summary cur) = false -> exists e, notesTab s = Throw e))
  /\ exists entries,
       historyTab now s = Normal (mkHistory true (Some entries))
       /\ List.length entries = List.length (lectures s)
       /\ 0 < List.length entries
       /\ Forall (fun e => entry_date e <> None) entries
       /\ existsb entry_selected entries = true.
Proof.
  intros R M.
  destruct (reachable_mock_inv w s R M) as (_ & [added A] & L).
  destruct (reachable_selection_inv w s R) as [I1 I2].
  assert (lectures s <> []) as N by (rewrite A; destruct added; discriminate).
  destruct (selectedLecture s) as [cur|] eqn:S; [|destruct (N (I2 eq_refl))].
  split.
  - exists cur. split; [reflexivity|]. unfold notesTab. rewrite S, andb_false_r.
    split; [reflexivity|]. unfold summaryView.
    destruct (renderable (summary cur)).
    + split; [discriminate|]. split; [discriminate|].
      split; [reflexivity | discriminate].
    + split; [discriminate|]. split; [discriminate|].
      split; [discriminate | eexists; reflexivity].
  - destruct (historyEntries_local now (Some cur) (lectures s) L)
      as (entries & E & Len & D & Sel).
    exists entries. unfold historyTab. rewrite S, E, M.
    destruct (lectures s) as [|l ls] eqn:Ls; [contradiction|].
    cbn [List.length Nat.ltb Nat.leb]. split; [reflexivity|].
    split; [exact Len|]. split; [rewrite Len; cbn; lia|]. split; [exact D|].
    apply (Sel cur eq_refl). apply I1. reflexivity.
Qed.

Lemma mock_mode_selects_a_record_witness :
  let s := dispatch page_without_config ClickGenerate
             (fallback_session neuron_transcript) in
  isLoading s = true
  /\ exists sample, MOCK_LECTURES = [sample]
                    /\ notesTab s = Normal (SummaryOf (summary sample)).
Proof.
  cbn zeta.
  assert (reachable page_without_config
            (dispatch page_without_config ClickGenerate
               (fallback_session neuron_transcript))) as R.
  { apply reach_event; [apply fallback_reachable | split; reflexivity]. }
  destruct (mock_mode_selects_a_record _ _ 0%Z R eq_refl)
    as [(cur & S & _ & _ & _ & N & _) _].
  split; [reflexivity|].
  exists cur. cbn in S. injection S as <-.
  split; [reflexivity | apply N; reflexivity].
Defined.

(* ================================================================= *)
(** ** Which events write which cells *)

(** X16.  The error message is written by the two generation events only:
    typing, recording, changing tabs, selecting a record, the setup and
    the snapshots all leave a message on display.  The transcript is
    written by typing, by the record button and by recognition results
    only, and the list of records by the setup, the snapshots and the
    settling of a generation only. *)
Theorem cells_and_their_events (w : Window) (ev : Event) (s : State) :
  (generationEvent ev = false -> error (dispatch w ev s) = error s)
  /\ (transcriptEvent ev = false -> lectureText (dispatch w ev s) = lectureText s)
  /\ (listEvent ev = false -> lectures (dispatch w ev s) = lectures s).
Proof.
  assert (forall c0, error (after (setupFirebase w c0 s)) = error s
                     /\ lectureText (after (setupFirebase w c0 s)) = lectureText s)
    as Setup.
  { intros c0. destruct (setupFirebase_cases w c0 s) as [[uid E]|E]; rewrite E;
      split; reflexivity. }
  assert (error (after (handleToggleRecording s)) = error s
          /\ lectures (after (handleToggleRecording s)) = lectures s) as Toggle.
  { destruct (isRecording s) eqn:R.
    - rewrite (toggle_stop s R). destruct (recognitionRef s) as [[]|]; split; reflexivity.
    - rewrite (toggle_start s R). destruct (recognitionRef s) as [[]|]; split; reflexivity. }
  assert (forall st, error (after ((recognition_ended ;; onend) st)) = error st
                     /\ lectureText (after ((recognition_ended ;; onend) st))
                        = lectureText st
                     /\ lectures (after ((recognition_ended ;; onend) st)) = lectures st)
    as End.
  { intros st. unfold recognition_ended, onend, bind, setIsRecording,
      setInterimTranscript, upd, ret.
    destruct (recognitionRef st); repeat split. }
  destruct ev as [c|docs| |tab|value| | |c text uid mock|lecture|event| ];
    unfold dispatch, handler; cbn [generationEvent transcriptEvent listEvent];
    (split; [|split]); intros F; try discriminate F; try reflexivity.
  - apply Setup.
  - apply Setup.
  - apply Toggle.
  - apply Toggle.
  - unfold handleGenerate_begin, withProps.
    destruct (generateRefused _ _); reflexivity.
  - unfold handleGenerate_begin, withProps.
    destruct (generateRefused _ _); reflexivity.
  - unfold handleGenerate_settle, finally, try_catch, bind, setIsLoading, setError,
      setActiveTab, upd.
    rewrite handleGenerate_try_run.
    destruct (outcome (generate c text s)) as [d|e]; [destruct mock|]; cbn;
      try reflexivity.
    destruct (add c _ _); reflexivity.
  - rewrite onresult_run. reflexivity.
  - rewrite onresult_run. reflexivity.
  - apply End.
  - apply End.
  - apply End.
Qed.

(* ================================================================= *)
(** ** Identifiers and dates of mock records *)

Lemma to_int_proper (z : Z) :
  Z.to_int z <> Decimal.Pos Decimal.Nil /\ Z.to_int z <> Decimal.Neg Decimal.Nil.
Proof.
  destruct z as [|p|p]; cbn; split; try discriminate;
    intros [= F]; exact (DecimalPos.Unsigned.to_uint_nonnil p F).
Qed.

(** The rendering of an integer determines it. *)
Lemma show_inj (a b : Z) : show a = show b -> a = b.
Proof.
  unfold show. intros E. apply DecimalZ.to_int_inj.
  destruct (to_int_proper a) as [A1 A2]. destruct (to_int_proper b) as [B1 B2].
  pose proof (NilZero.isi _ A1 A2) as Ia. pose proof (NilZero.isi _ B1 B2) as Ib.
  rewrite E in Ia. rewrite Ia in Ib. injection Ib as Ib. exact Ib.
Qed.

(** X17.  The identifier of a mock record is made of the clock reading
    alone: two records get the same identifier exactly when they are
    created at the same reading, whatever they hold.  Two records added at
    one reading therefore stand in the list with one identifier, and the
    history marks both when either is selected. *)
Theorem mock_ids_follow_the_clock (d1 d2 : LectureData) :
  (forall now1 now2,
     id (newLecture_mock now1 d1) = id (newLecture_mock now2 d2) <-> now1 = now2)
  /\ forall (w : Window) (c : Collaborators) (uid : option string) (s : State),
       let s2 := after (addLecture w c uid true d2
                          (after (addLecture w c uid true d1 s))) in
       ~ NoDup (map id (lectures s2))
       /\ forall selected,
            isSelected (Some selected) (newLecture_mock (Date_now c) d1)
            = isSelected (Some selected) (newLecture_mock (Date_now c) d2).
Proof.
  split.
  - intros now1 now2. cbn. split; [|intros ->; reflexivity].
    intros [= E]. apply show_inj. exact E.
  - intros w c uid s. cbn zeta. rewrite !addLecture_mock. cbn. split.
    + intros N. inversion N as [|x l Hnot _]. apply Hnot. left. reflexivity.
    + reflexivity.
Qed.

(** X18.  A mock record does not keep its creation time: the date the
    history shows for it is the time of rendering, whatever the clock
    showed when it was created, while the built-in sample always shows
    five minutes before the time of rendering. *)
Theorem mock_dates_are_rendering_time (created : Z) (d : LectureData)
    (selected : option Lecture) (t : Z) :
  (exists entry, historyEntry t selected (newLecture_mock created d) = Normal entry
                 /\ entry_date entry = Some t
                 /\ entry_title entry = ld_title d)
  /\ Forall (fun sample =>
               exists entry, historyEntry t selected sample = Normal entry
                             /\ entry_date entry = Some (t - 300000)%Z)
       MOCK_LECTURES.
Proof.
  split.
  - unfold historyEntry. cbn. eexists. split; [reflexivity|]. cbn.
    rewrite Z.sub_0_r. split; reflexivity.
  - repeat constructor. unfold historyEntry. cbn. eexists.
    split; reflexivity.
Qed.

(* ================================================================= *)
(** ** Snapshots, again *)

Lemma reselect_idem (l : list Lecture) (cur : option Lecture) :
  reselect l (reselect l cur) = reselect l cur.
Proof.
  destruct (reselect l cur) as [x|] eqn:E.
  - destruct (reselect_sound l cur) as [S _].
    apply reselect_present. apply S. exact E.
  - destruct (reselect_sound l cur) as [_ S]. rewrite (S E). reflexivity.
Qed.

(** X19.  Delivering the same snapshot twice changes nothing the second
    time; and a snapshot decides the list alone: what the list held
    before, local additions included, is gone. *)
Theorem snapshot_is_idempotent (docs : list Doc) (s : State) :
  after (snapshotListener docs (after (snapshotListener docs s)))
  = after (snapshotListener docs s)
  /\ forall other,
       lectures (after (snapshotListener docs (set_lectures other s)))
       = lectures (after (snapshotListener docs s)).
Proof.
  rewrite !snapshotListener_run. cbn. split; [|reflexivity].
  rewrite reselect_idem. reflexivity.
Qed.

(* ================================================================= *)
(** ** Which requests are refused *)

Lemma isWhiteSpace_codes (ch : ascii) :
  isWhiteSpace ch = true <-> In (nat_of_ascii ch) [9; 10; 11; 12; 13; 32; 160].
Proof.
  unfold isWhiteSpace. cbn zeta. generalize (nat_of_ascii ch) as n. intros n.
  rewrite !orb_true_iff, andb_true_iff, !Nat.leb_le, !Nat.eqb_eq. cbn. lia.
Qed.

(** X20.  For a transcript whose code units are all below 256 (the
    strings of this development; above 255 [trim] strips further white
    space, such as U+2003, U+2028 and U+FEFF, which these strings do not
    hold), [handleGenerate] refuses a request exactly when the transcript
    holds nothing but the code units 9 to 13, 32 and 160 (the empty
    transcript included) or the user identifier is missing or empty. *)
Theorem refused_requests (text : string) (uid : option string) :
  generateRefused text uid = true
  <-> (forall ch, In ch (list_ascii_of_string text) ->
         In (nat_of_ascii ch) [9; 10; 11; 12; 13; 32; 160])
      \/ uid = None \/ uid = Some "".
Proof.
  unfold generateRefused. rewrite orb_true_iff, !negb_true_iff, truthy_false, trim_blank.
  split.
  - intros [B|U].
    + left. intros ch Hin. apply isWhiteSpace_codes. apply B. exact Hin.
    + right. destruct uid as [[|x u]|]; cbn in U; auto; discriminate.
  - intros [B|[->| ->]]; [left|right; reflexivity|right; reflexivity].
    intros ch Hin. apply isWhiteSpace_codes. apply B. exact Hin.
Qed.

(* ================================================================= *)
(** ** Recording again before the capture has ended *)

(** X21.  When the record button is pressed while the flag is down but
    the recognition object is still started (its end event has not come
    yet), [start()] throws: the transcript and the interim text have been
    emptied all the same, the flag stays down and the object is left as it
    is, so the text is lost without a capture having begun. *)
Theorem restart_before_the_end (s : State) (r : Recognition) :
  isRecording s = false ->
  recognitionRef s = Some r ->
  started r = true ->
  let run := handleToggleRecording s in
  (exists e, outcome run = Throw e)
  /\ lectureText (after run) = ""
  /\ interimTranscript (after run) = ""
  /\ isRecording (after run) = false
  /\ recognitionRef (after run) = Some r.
Proof.
  intros Rec Ref St. cbn zeta.
  unfold handleToggleRecording, withProps. rewrite Rec.
  unfold bind, setLectureText, setInterimTranscript, setIsRecording, upd,
    recognition_start, eval. cbn. rewrite Ref, St. cbn.
  split; [eexists; reflexivity|]. repeat split; assumption.
Qed.

Lemma restart_before_the_end_witness :
  reachable page_without_config just_stopped
  /\ lectureText just_stopped = "typed after the capture"
  /\ lectureText (dispatch page_without_config ClickRecord just_stopped) = ""
  /\ isRecording (dispatch page_without_config ClickRecord just_stopped) = false.
Proof.
  split.
  { unfold just_stopped. repeat (apply reach_event; [|reflexivity]).
    apply reach_mount. }
  destruct (restart_before_the_end just_stopped Stopping eq_refl eq_refl eq_refl)
    as (_ & Ht & _ & Hr & _).
  split; [reflexivity|]. split; [exact Ht | exact Hr].
Defined.

(* ================================================================= *)
(** ** The flashcards tab after a payload without flashcards *)

(** X22.  After a successful generation in mock mode the new record is
    selected, and the flashcards tab reads the length of its
    [flashcards]: when the payload had no [flashcards] member, or [null]
    there, that read throws a TypeError; when it had an array, the read
    yields the number of its entries. *)
Theorem flashcards_length_of_the_created_record (w : Window) (c : Collaborators)
    (s : State) (answer : string) (result fc : Value) :
  generateRefused (lectureText s) (userId s) = false ->
  mockMode s = true ->
  error (after (handleGenerate w c s)) = None ->
  generateContent c (generateParams (lectureText s)) = Normal (Some answer) ->
  JSON_parse c (trim answer) = Normal result ->
  get result "flashcards" = Normal fc ->
  let s' := after (handleGenerate w c s) in
  (fc = Undefined \/ fc = Null ->
     exists msg, flashcardsTab_length s' = Some (Throw (TypeError msg)))
  /\ (forall cards, fc = Array cards ->
        flashcardsTab_length s'
        = Some (Normal (Number (show (Z.of_nat (List.length cards)))))).
Proof.
  intros H M E A P F. cbn zeta.
  destruct (handleGenerate_record w c s H E) as (d & G & R).
  rewrite M in R. destruct R as (_ & S & _).
  destruct (handleGenerate_payload c s answer result d A P G) as [_ F'].
  rewrite F in F'. injection F' as F'.
  unfold flashcardsTab_length. rewrite S. cbn. rewrite <- F'. split.
  - intros [-> | ->]; eexists; reflexivity.
  - intros cards ->. reflexivity.
Qed.

Lemma flashcards_length_of_the_created_record_witness :
  exists msg,
    flashcardsTab_length
      (after (handleGenerate page_without_config empty_object_service
                (fallback_session neuron_transcript)))
    = Some (Throw (TypeError msg)).
Proof.
  destruct (flashcards_length_of_the_created_record page_without_config
              empty_object_service (fallback_session neuron_transcript)
              "{}" (Object []) Undefined
              eq_refl eq_refl eq_refl eq_refl eq_refl eq_refl) as [T _].
  apply T. left. reflexivity.
Defined.

(* ================================================================= *)
(** ** A click and its settlement *)

(** While the loading flag is up, an event other than the settlement
    leaves it up, and it is not a click on the generate button. *)
Lemma loading_survives (w : Window) (ev : Event) (s : State) :
  isLoading s = true ->
  isSettlement ev = false ->
  enabled ev s ->
  ev <> ClickGenerate /\ isLoading (dispatch w ev s) = true.
Proof.
  intros L N En.
  destruct ev as [c|docs| |tab|value| | |c text uid mock|lecture|event| ];
    try (split; [discriminate|]); unfold dispatch, handler.
  - destruct (setupFirebase_cases w c s) as [[uid E]|E]; rewrite E; exact L.
  - rewrite snapshotListener_run. exact L.
  - exact L.
  - exact L.
  - exact L.
  - destruct (isRecording s) eqn:R.
    + rewrite (toggle_stop s R). destruct (recognitionRef s) as [[]|]; exact L.
    + rewrite (toggle_start s R). destruct (recognitionRef s) as [[]|]; exact L.
  - exfalso. destruct En as [_ D]. unfold isGenerateDisabled in D.
    rewrite L, orb_true_r in D. discriminate.
  - discriminate.
  - exact L.
  - rewrite onresult_run. exact L.
  - unfold recognition_ended, onend, bind, setIsRecording, setInterimTranscript,
      upd, ret.
    destruct (recognitionRef s); exact L.
Qed.

Lemma loading_until_settled (w : Window) (evs : list Event) :
  forall s,
    isLoading s = true ->
    Forall (fun ev => isSettlement ev = false) evs ->
    allEnabled w evs s ->
    isLoading (dispatchAll w evs s) = true /\ ~ In ClickGenerate evs.
Proof.
  induction evs as [|ev evs IH]; intros s L N En.
  - split; [exact L | intros []].
  - inversion N as [|? ? N1 N2]; subst. destruct En as [E1 E2].
    destruct (loading_survives w ev s L N1 E1) as [Hne L'].
    destruct (IH (dispatch w ev s) L' N2 E2) as [L2 NI].
    split; [exact L2|]. intros [H|H]; [exact (Hne H) | exact (NI H)].
Qed.

(** X23.  The click on the generate button and the arrival of the answers
    compose to a run of [handleGenerate]: a refused click is the whole
    run; an accepted click clears the error, shows the notes tab and
    raises the loading flag.  From then until the settlement, whatever
    other events are handled in between (tab clicks, typing, the record
    button, recognition results, snapshots, the setup), the flag stays up
    and the button stays disabled, so none of them is a click on the
    generate button and no second generation starts.  The settlement with
    the values captured at the click, handled right after it, leaves the
    state of the whole run. *)
Theorem click_then_settlement (w : Window) (c : Collaborators) (s : State) :
  let clicked := dispatch w ClickGenerate s in
  (generateRefused (lectureText s) (userId s) = true ->
     clicked = after (handleGenerate w c s))
  /\ (generateRefused (lectureText s) (userId s) = false ->
        isLoading clicked = true
        /\ error clicked = None
        /\ activeTab clicked = Tab.notes
        /\ isGenerateDisabled clicked = true
        /\ enabled (GenerateSettled c (lectureText s) (userId s) (mockMode s)) clicked
        /\ dispatch w (GenerateSettled c (lectureText s) (userId s) (mockMode s))
             clicked
           = after (handleGenerate w c s)
        /\ forall evs,
             Forall (fun ev => isSettlement ev = false) evs ->
             allEnabled w evs clicked ->
             ~ In ClickGenerate evs
             /\ isLoading (dispatchAll w evs clicked) = true
             /\ isGenerateDisabled (dispatchAll w evs clicked) = true
             /\ ~ enabled ClickGenerate (dispatchAll w evs clicked)).
Proof.
  cbn zeta. split; intros H.
  - unfold dispatch, handler. rewrite handleGenerate_phases. rewrite H.
    reflexivity.
  - assert (isLoading (dispatch w ClickGenerate s) = true) as L.
    { unfold dispatch, handler, handleGenerate_begin, withProps. rewrite H.
      reflexivity. }
    split; [exact L|].
    split; [unfold dispatch, handler, handleGenerate_begin, withProps; rewrite H;
            reflexivity|].
    split; [unfold dispatch, handler, handleGenerate_begin, withProps; rewrite H;
            reflexivity|].
    split; [unfold isGenerateDisabled; rewrite L; apply orb_true_r|].
    split; [exact L|]. split.
    + unfold dispatch, handler. rewrite handleGenerate_phases. rewrite H.
      unfold bind, handleGenerate_begin, withProps. rewrite H. reflexivity.
    + intros evs N En.
      destruct (loading_until_settled w evs _ L N En) as [L' NI].
      split; [exact NI|]. split; [exact L'|].
      assert (isGenerateDisabled (dispatchAll w evs (dispatch w ClickGenerate s))
              = true) as D
        by (unfold isGenerateDisabled; rewrite L'; apply orb_true_r).
      split; [exact D|]. intros [_ D']. rewrite D in D'. discriminate.
Qed.

Lemma click_then_settlement_witness :
  let clicked := dispatch page_without_config ClickGenerate
                   (fallback_session neuron_transcript) in
  let between := [ClickTab Tab.input; ChangeText "more"; ClickRecord;
                  ClickTab Tab.history] in
  isGenerateDisabled (fallback_session neuron_transcript) = false
  /\ isGenerateDisabled clicked = true
  /\ dispatch page_without_config
       (GenerateSettled neuron_service neuron_transcript (Some "MOCK_USER_ID") true)
       clicked
     = after (handleGenerate page_without_config neuron_service
                (fallback_session neuron_transcript))
  /\ allEnabled page_without_config between clicked
  /\ isGenerateDisabled (dispatchAll page_without_config between clicked) = true.
Proof.
  destruct (click_then_settlement page_without_config neuron_service
              (fallback_session neuron_transcript)) as [_ A].
  destruct (A eq_refl) as (_ & _ & _ & Hd & _ & Hs & Hb).
  assert (allEnabled page_without_config
            [ClickTab Tab.input; ChangeText "more"; ClickRecord;
             ClickTab Tab.history]
            (dispatch page_without_config ClickGenerate
               (fallback_session neuron_transcript))) as En.
  { cbn. repeat split. }
  assert (Forall (fun ev => isSettlement ev = false)
            [ClickTab Tab.input; ChangeText "more"; ClickRecord;
             ClickTab Tab.history]) as N by (repeat constructor).
  destruct (Hb _ N En) as (_ & _ & Hd' & _).
  cbn zeta. split; [reflexivity|]. split; [exact Hd|]. split; [exact Hs|].
  split; [exact En | exact Hd'].
Defined.

(* ================================================================= *)
(** ** Where the records are written *)

Lemma handleGenerate_writes (w : Window) (c : Collaborators) (s : State)
    (path : string) (doc : NewLecture) :
  In (CollectionAdd path doc) (calls (handleGenerate w c s)) ->
  mockMode s = false /\ path = lecturesPath w (show_userId (userId s)).
Proof.
  assert (In (CollectionAdd path doc) (calls (attempt w c s)) ->
          mockMode s = false /\ path = lecturesPath w (show_userId (userId s))) as A.
  { destruct (handleGenerate_try_calls w c (lectureText s) (userId s) (mockMode s)
                (generating s)) as [C|[C|(M & d & _ & C)]];
      unfold attempt; rewrite C.
    - intros [].
    - intros [F|[]]. discriminate.
    - intros [F|[[= -> _]|[]]]; [discriminate|]. split; [exact M | reflexivity]. }
  destruct (generateRefused (lectureText s) (userId s)) eqn:H.
  - rewrite (handleGenerate_refused w c s H). intros [].
  - destruct (outcome (attempt w c s)) as [[]|e] eqn:T.
    + rewrite (handleGenerate_succeeded w c s H T). exact A.
    + rewrite (handleGenerate_failed w c s H e T). exact A.
Qed.

(** X24.  Records are written to the collection the listener watches:
    after a setup that signed in and subscribed, every write that a run of
    [handleGenerate] sends for that user goes to the path of the
    subscription, so a stored record comes back in a snapshot. *)
Theorem writes_go_to_the_subscription (w : Window) (c c' : Collaborators)
    (s s' : State) (uid path : string) (doc : NewLecture) :
  configMissing w = false ->
  signIn c (signInToken w) = Normal (Some uid) ->
  onSnapshot c (lecturesPath w uid) = Normal tt ->
  userId s' = userId (after (setupFirebase w c s)) ->
  In (CollectionAdd path doc) (calls (handleGenerate w c' s')) ->
  In (OnSnapshot path) (calls (setupFirebase w c s)).
Proof.
  intros Hc Hs Ho U W.
  destruct (handleGenerate_writes w c' s' path doc W) as [_ ->].
  rewrite U. unfold setupFirebase. rewrite Hc.
  unfold try_catch, bind, await, setUserId, setMockMode, upd.
  cbn -[lecturesPath]. fold (signInToken w). rewrite Hs. cbn -[lecturesPath].
  rewrite Ho. cbn -[lecturesPath]. right. left. reflexivity.
Qed.

Lemma writes_go_to_the_subscription_witness :
  In (CollectionAdd "/artifacts/studymate/users/uid-1/lectures"
        (newLecture_store
           (lectureData neuron_transcript (Str "...")
              (Array [Flashcard "Neuron" "..."]))))
     (calls (handleGenerate page_with_config neuron_service signed_in))
  /\ In (OnSnapshot "/artifacts/studymate/users/uid-1/lectures")
        (calls (setupFirebase page_with_config rejecting
                  (initialState page_with_config))).
Proof.
  assert (In (CollectionAdd "/artifacts/studymate/users/uid-1/lectures"
                (newLecture_store
                   (lectureData neuron_transcript (Str "...")
                      (Array [Flashcard "Neuron" "..."]))))
             (calls (handleGenerate page_with_config neuron_service signed_in))) as W
    by (right; left; reflexivity).
  split; [exact W|].
  exact (writes_go_to_the_subscription page_with_config rejecting neuron_service
           (initialState page_with_config) signed_in "uid-1" _ _
           eq_refl eq_refl eq_refl eq_refl W).
Defined.
